(** * Coordinate transformation service (src/app.py): shallow embedding

    The Flask handlers [transform_coordinates], [transform_batch] and
    [validate_coordinates] are embedded as functions from the decoded request
    to the response (body and status).  Python values are an inductive type,
    Python floats are IEEE 754 binary64 numbers ([spec_float] with
    [prec = 53], [emax = 1024]), exceptions are an error monad, and the
    [try ... except Exception] wrappers are the handlers of that monad.

    pyproj and the C mathematical library are not part of the repository:
    they are Section variables.  The built-ins [round] and [float] are
    embedded as Python defines them; what [float] and [repr] do with
    characters outside ASCII depends on the Unicode database and is a
    parameter too.  The CSV reader is the sequence of rows it yields, which
    may end with an error. *)

From Stdlib Require Import ZArith QArith String Ascii List Bool Lia.
From Stdlib Require Import Floats.SpecFloat.
From Stdlib Require Import Sorting.Sorted.
From stdpp Require Import base option gmap strings list fin_maps.

#[local] Open Scope string_scope.
#[local] Open Scope Z_scope.

(** ** Binary64 floating point numbers *)

Module F64.

Definition prec : Z := 53.
Definition emax : Z := 1024.

Abbreviation float := spec_float.

Definition add : float -> float -> float := SFadd prec emax.
Definition sub : float -> float -> float := SFsub prec emax.
Definition mul : float -> float -> float := SFmul prec emax.
Definition div : float -> float -> float := SFdiv prec emax.
Definition sqrt : float -> float := SFsqrt prec emax.

Definition nan : float := S754_nan.
Definition inf : float := S754_infinity false.
Definition neg_inf : float := S754_infinity true.

Definition is_nan (f : float) : bool :=
  match f with S754_nan => true | _ => false end.

Definition is_inf (f : float) : bool :=
  match f with S754_infinity _ => true | _ => false end.

Definition is_finite (f : float) : bool :=
  match f with S754_zero _ | S754_finite _ _ _ => true | _ => false end.

Definition is_zero (f : float) : bool :=
  match f with S754_zero _ => true | _ => false end.

(** The double nearest to an integer (ties to even); infinite when the
    integer is too large. *)
Definition of_Z (z : Z) : float := binary_normalize prec emax z 0 false.

(** The double nearest to [±n/d] (ties to even): how a decimal literal or
    a decimal string is read. *)
Definition of_ratio (s : bool) (n d : positive) : float :=
  let '(mz, ez, lz) := SFdiv_core_binary prec emax (Zpos n) 0 (Zpos d) 0 in
  binary_round_aux prec emax s mz ez lz.

(** The double nearest to [±m·10^e]. *)
Definition of_decimal (s : bool) (m : Z) (e : Z) : float :=
  match m with
  | Zpos p =>
      if 0 <=? e then of_ratio s (p * Z.to_pos (10 ^ e)) 1
      else of_ratio s p (Z.to_pos (10 ^ (- e)))
  | _ => S754_zero s
  end.

(** Exact value of a double as a rational; [None] for NaN and the
    infinities. *)
Definition value (f : float) : option Q :=
  match f with
  | S754_zero _ => Some (0 # 1)%Q
  | S754_finite s m e =>
      let v := cond_Zopp s (Zpos m) in
      Some (if 0 <=? e then (v * 2 ^ e) # 1 else v # Z.to_pos (2 ^ (- e)))%Q
  | _ => None
  end.

(** Exact comparison of a double with an integer, as Python compares a
    float with an int. *)
Definition compare_Z (f : float) (z : Z) : option comparison :=
  match f with
  | S754_nan => None
  | S754_infinity s => Some (if s then Lt else Gt)
  | S754_zero _ => Some (0 ?= z)
  | S754_finite s m e =>
      let v := cond_Zopp s (Zpos m) in
      Some (if 0 <=? e then v * 2 ^ e ?= z else v ?= z * 2 ^ (- e))
  end.

Definition compare : float -> float -> option comparison := SFcompare.

(** [Py_MATH_PI], 0x1.921fb54442d18p+1. *)
Definition pi : float := S754_finite false 7074237752028440 (-51).

(** Nearest integer to [n/d] for [d > 0], ties to even. *)
Definition div_half_even (n d : Z) : Z :=
  let q := n / d in
  match 2 * (n mod d) ?= d with
  | Lt => q
  | Gt => q + 1
  | Eq => if Z.even q then q else q + 1
  end.

(** [round(x, ndigits)] for a float [x] and [0 <= ndigits]: the exact
    value is rounded to [ndigits] decimals, ties to even, and the decimal is
    read back as the nearest double; NaN and the infinities round to
    themselves, and the sign of a zero result is kept. *)
Definition round (ndigits : Z) (f : float) : float :=
  match f with
  | S754_finite s m e =>
      let p := 10 ^ ndigits in
      let n := if 0 <=? e then Zpos m * 2 ^ e * p
               else div_half_even (Zpos m * p) (2 ^ (- e)) in
      of_decimal s n (- ndigits)
  | _ => f
  end.

End F64.

Abbreviation float := spec_float.

(** ** Python values, exceptions and responses *)

(** A decoded JSON value, a CSV cell or a value computed by a handler. *)
#[warnings="-register-all"]
Inductive pyval :=
  | VNone
  | VBool (b : bool)
  | VInt (z : Z)
  | VFloat (f : float)
  | VStr (s : string)
  | VList (l : list pyval)
  | VDict (d : gmap string pyval).

(** An exception: its class and [str(e)]. *)
Record exn := Exn { exn_class : string; exn_str : string }.

Inductive exc (A : Type) :=
  | Return (a : A)
  | Raise (e : exn).
Arguments Return {A} a.
Arguments Raise {A} e.

#[export] Instance exc_ret : MRet exc := fun A a => Return a.
#[export] Instance exc_bind : MBind exc := fun A B k m =>
  match m with
  | Return a => k a
  | Raise e => Raise e
  end.

Definition TypeError (msg : string) : exn := Exn "TypeError" msg.
Definition ValueError (msg : string) : exn := Exn "ValueError" msg.
Definition AttributeError (msg : string) : exn := Exn "AttributeError" msg.
Definition OverflowError (msg : string) : exn := Exn "OverflowError" msg.
Definition ZeroDivisionError (msg : string) : exn := Exn "ZeroDivisionError" msg.

(** What a handler sends: [jsonify(body)] with status 200, or
    [jsonify({'error': msg}), status]. *)
Inductive response (A : Type) :=
  | Ok (body : A)
  | Error (status : Z) (msg : string).
Arguments Ok {A} body.
Arguments Error {A} status msg.

(** [try: ... except Exception as e: return jsonify({'error': str(e)}), 500] *)
Definition handle {A} (m : exc (response A)) : response A :=
  match m with
  | Return r => r
  | Raise e => Error 500 (exn_str e)
  end.

Definition is_error {A} (r : response A) : bool :=
  match r with Ok _ => false | Error _ _ => true end.

Definition type_name (v : pyval) : string :=
  match v with
  | VNone => "NoneType"
  | VBool _ => "bool"
  | VInt _ => "int"
  | VFloat _ => "float"
  | VStr _ => "str"
  | VList _ => "list"
  | VDict _ => "dict"
  end.

(** Truth value of an object ([not v], [a or b], [all([...])]). *)
Definition truthy (v : pyval) : bool :=
  match v with
  | VNone => false
  | VBool b => b
  | VInt z => negb (z =? 0)
  | VFloat f => negb (F64.is_zero f)
  | VStr s => negb (String.eqb s "")
  | VList l => match l with [] => false | _ => true end
  | VDict d => negb (bool_decide (d = ∅))
  end.

(** [v.get(key)]: a missing key gives [None]; only a dict has [get]. *)
Definition py_get (v : pyval) (key : string) : exc pyval :=
  match v with
  | VDict d => Return (default VNone (d !! key))
  | _ => Raise (AttributeError ("'" ++ type_name v ++ "' object has no attribute 'get'"))
  end.

(** [v == s] for a string literal [s]. *)
Definition py_eq_str (v : pyval) (s : string) : bool :=
  match v with VStr t => String.eqb t s | _ => false end.

(** [v is None] *)
Definition is_None (v : pyval) : bool :=
  match v with VNone => true | _ => false end.

(** *** Numbers *)

Inductive num := NInt (z : Z) | NFloat (f : float).

(** The numeric objects: int, float, and bool as the int 0 or 1. *)
Definition as_num (v : pyval) : option num :=
  match v with
  | VInt z => Some (NInt z)
  | VBool b => Some (NInt (if b then 1 else 0))
  | VFloat f => Some (NFloat f)
  | _ => None
  end.

Definition of_num (n : num) : pyval :=
  match n with NInt z => VInt z | NFloat f => VFloat f end.

Definition num_compare (a b : num) : option comparison :=
  match a, b with
  | NInt x, NInt y => Some (x ?= y)
  | NFloat f, NInt y => F64.compare_Z f y
  | NInt x, NFloat f => option_map CompOpp (F64.compare_Z f x)
  | NFloat f, NFloat g => F64.compare f g
  end.

Definition not_supported (op : string) (a b : pyval) : exn :=
  TypeError ("'" ++ op ++ "' not supported between instances of '"
             ++ type_name a ++ "' and '" ++ type_name b ++ "'").

(** [a <= b] and [a < b].  In this program one operand is always an int
    literal, so the comparison is defined for numbers only and raises
    [TypeError] otherwise. *)
Definition py_le (a b : pyval) : exc bool :=
  match as_num a, as_num b with
  | Some x, Some y =>
      Return (match num_compare x y with Some Lt | Some Eq => true | _ => false end)
  | _, _ => Raise (not_supported "<=" a b)
  end.

Definition py_lt (a b : pyval) : exc bool :=
  match as_num a, as_num b with
  | Some x, Some y =>
      Return (match num_compare x y with Some Lt => true | _ => false end)
  | _, _ => Raise (not_supported "<" a b)
  end.

(** [lo <= v <= hi]: the second comparison is made only when the first one
    holds. *)
Definition py_between (lo : Z) (v : pyval) (hi : Z) : exc bool :=
  b ← py_le (VInt lo) v;
  if b : bool then py_le v (VInt hi) else Return false.

(** Conversion to a C double ([PyFloat_AsDouble]). *)
Definition as_double (v : pyval) : exc float :=
  match as_num v with
  | Some (NFloat f) => Return f
  | Some (NInt z) =>
      let f := F64.of_Z z in
      if F64.is_inf f then Raise (OverflowError "int too large to convert to float")
      else Return f
  | None => Raise (TypeError ("must be real number, not " ++ type_name v))
  end.

(** [a - b] on numbers: exact on ints, in binary64 as soon as one operand
    is a float. *)
Definition py_sub (a b : pyval) : exc pyval :=
  match as_num a, as_num b with
  | Some (NInt x), Some (NInt y) => Return (VInt (x - y))
  | Some _, Some _ =>
      x ← as_double a; y ← as_double b; Return (VFloat (F64.sub x y))
  | _, _ =>
      Raise (TypeError ("unsupported operand type(s) for -: '" ++ type_name a
                        ++ "' and '" ++ type_name b ++ "'"))
  end.

(** [round(v, ndigits)] with [0 <= ndigits]: an int is returned as it is. *)
Definition py_round (v : pyval) (ndigits : Z) : exc pyval :=
  match as_num v with
  | Some (NFloat f) => Return (VFloat (F64.round ndigits f))
  | Some (NInt z) => Return (VInt z)
  | None =>
      Raise (TypeError ("type " ++ type_name v ++ " doesn't define __round__ method"))
  end.

(** *** The built-in [float] *)

Module FloatOfString.

Definition code (c : ascii) : N := N_of_ascii c.

(** [Py_ISSPACE]: tab to carriage return, and space. *)
Definition is_space (c : ascii) : bool :=
  ((9 <=? code c) && (code c <=? 13) || (code c =? 32))%N.

Definition is_digit (c : ascii) : bool :=
  ((48 <=? code c) && (code c <=? 57))%N.

Definition digit (c : ascii) : Z := Z.of_N (code c - 48).

Definition lower (c : ascii) : ascii :=
  if ((65 <=? code c) && (code c <=? 90))%N then ascii_of_N (code c + 32) else c.

Fixpoint lstrip (l : list ascii) : list ascii :=
  match l with
  | c :: r => if is_space c then lstrip r else l
  | [] => []
  end.

Definition strip (l : list ascii) : list ascii :=
  rev (lstrip (rev (lstrip l))).

(** After a first digit: [(["_"] digit)*].  Returns the number read so
    far, how many digits it has, and the unread text. *)
Fixpoint more_digits (l : list ascii) (acc cnt : Z) : Z * Z * list ascii :=
  match l with
  | c :: r =>
      if is_digit c then more_digits r (10 * acc + digit c) (cnt + 1)
      else if Ascii.eqb c "_" then
        match r with
        | d :: r' =>
            if is_digit d then more_digits r' (10 * acc + digit d) (cnt + 1)
            else (acc, cnt, l)
        | [] => (acc, cnt, l)
        end
      else (acc, cnt, l)
  | [] => (acc, cnt, l)
  end.

(** [digitpart ::= digit (["_"] digit)*], continuing the number [acc]. *)
Definition digitpart (l : list ascii) (acc : Z) : option (Z * Z * list ascii) :=
  match l with
  | c :: r => if is_digit c then Some (more_digits r (10 * acc + digit c) 1) else None
  | [] => None
  end.

Definition sign (l : list ascii) : bool * list ascii :=
  match l with
  | c :: r =>
      if Ascii.eqb c "-" then (true, r)
      else if Ascii.eqb c "+" then (false, r)
      else (false, l)
  | [] => (false, l)
  end.

(** [digitpart ["." [digitpart]] [exponent] | "." digitpart [exponent]]
    with [exponent ::= ("e" | "E") [sign] digitpart]; the whole text must
    be used. *)
Definition number (s : bool) (l : list ascii) : option float :=
  let '(m1, n1, l1) := default (0, 0, l) (digitpart l 0) in
  let '(m2, n2, l2) :=
    match l1 with
    | c :: r => if Ascii.eqb c "." then default (m1, 0, r) (digitpart r m1)
                else (m1, 0, l1)
    | [] => (m1, 0, l1)
    end in
  if n1 + n2 =? 0 then None
  else
    match l2 with
    | [] => Some (F64.of_decimal s m2 (- n2))
    | c :: r =>
        if Ascii.eqb (lower c) "e" then
          let '(es, r1) := sign r in
          match digitpart r1 0 with
          | Some (ev, _, []) =>
              Some (F64.of_decimal s m2 ((if es : bool then - ev else ev) - n2))
          | _ => None
          end
        else None
    end.

Definition parse (t : string) : option float :=
  let '(s, r) := sign (strip (list_ascii_of_string t)) in
  let w := string_of_list_ascii (map lower r) in
  if String.eqb w "inf" || String.eqb w "infinity" then Some (S754_infinity s)
  else if String.eqb w "nan" then Some F64.nan
  else number s r.

End FloatOfString.

(** *** [repr] of a string *)

Module Repr.

Definition code (c : ascii) : N := N_of_ascii c.

Definition single_quote : ascii := "'".
Definition double_quote : ascii := ascii_of_N 34.
Definition backslash : ascii := ascii_of_N 92.

Definition hex_digit (n : N) : ascii :=
  if (n <? 10)%N then ascii_of_N (48 + n) else ascii_of_N (87 + n).

(** One character between the quotes: the quote and the backslash are
    escaped, tab, newline and carriage return are written [\t], [\n], [\r],
    the other control characters [\xNN]. *)
Definition escape (quote c : ascii) : string :=
  let one (a : ascii) := String a EmptyString in
  if Ascii.eqb c quote || Ascii.eqb c backslash then String backslash (one c)
  else if (code c =? 9)%N then String backslash "t"
  else if (code c =? 10)%N then String backslash "n"
  else if (code c =? 13)%N then String backslash "r"
  else if (code c <? 32)%N || (code c =? 127)%N
       then String backslash
              (String "x" (String (hex_digit (code c / 16)) (one (hex_digit (code c mod 16)))))
  else one c.

(** [repr] of an ASCII string: in single quotes, unless it has a single
    quote and no double quote. *)
Definition ascii_repr (s : string) : string :=
  let l := list_ascii_of_string s in
  let quote :=
    if existsb (Ascii.eqb single_quote) l && negb (existsb (Ascii.eqb double_quote) l)
    then double_quote else single_quote in
  String quote (String.concat "" (map (escape quote) l) ++ String quote EmptyString).

End Repr.

(** What the Unicode database decides for a string with characters outside
    ASCII (strings are UTF-8 bytes here): the ASCII text [float] reads
    instead, with every white space a space and every decimal digit its
    ASCII digit, and the [repr] of the string. *)
Record unicode_db := {
  to_ascii : string -> string;
  non_ascii_repr : string -> string
}.

Definition is_ascii (s : string) : bool :=
  forallb (fun c => (N_of_ascii c <? 128)%N) (list_ascii_of_string s).

Section Builtins.

Variable unicode : unicode_db.

Definition py_repr (s : string) : string :=
  if is_ascii s then Repr.ascii_repr s else non_ascii_repr unicode s.

(** [float(v)].  A string is read as: optional white space and sign, then
    [inf], [infinity], [nan] or a decimal number with optional underscores
    between digits, rounded to the nearest double. *)
Definition py_float (v : pyval) : exc float :=
  match v with
  | VStr s =>
      match FloatOfString.parse (if is_ascii s then s else to_ascii unicode s) with
      | Some f => Return f
      | None => Raise (ValueError ("could not convert string to float: " ++ py_repr s))
      end
  | VInt _ | VBool _ | VFloat _ => as_double v
  | _ =>
      Raise (TypeError ("float() argument must be a string or a real number, not '"
                        ++ type_name v ++ "'"))
  end.

End Builtins.

(** ** Static tables *)

Definition CRS_DEFINITIONS : gmap string string :=
  list_to_map
    [ ("WGS84", "EPSG:4326");
      ("UTM_30N", "EPSG:32630");
      ("UTM_31N", "EPSG:32631");
      ("GHANA_GRID",
       "+proj=tmerc +lat_0=4.666666666666667 +lon_0=-1 +k=0.99975 +x_0=274319.51 +y_0=0 +ellps=clrk80 +towgs84=-199,32,322,0,0,0,0 +units=m +no_defs");
      ("WEB_MERCATOR", "EPSG:3857") ].

Record accuracy_info := {
  accuracy : string;
  description : string;
  use_case : string
}.

Definition TRANSFORMATION_ACCURACY : gmap string accuracy_info :=
  list_to_map
    [ ("WGS84_to_UTM",
       {| accuracy := "< 1 meter";
          description := "High accuracy transformation using standard UTM projection parameters";
          use_case := "Engineering surveys, cadastral mapping, GIS applications" |});
      ("WGS84_to_GHANA_GRID",
       {| accuracy := "1-5 meters";
          description := "Uses Helmert transformation with 7 parameters. Accuracy depends on the datum shift parameters";
          use_case := "Land surveying in Ghana, integration with national mapping systems" |});
      ("UTM_to_GHANA_GRID",
       {| accuracy := "1-5 meters";
          description := "Involves datum transformation via WGS84. Compound transformation may introduce small errors";
          use_case := "Converting international survey data to Ghana national system" |});
      ("GHANA_GRID_to_WGS84",
       {| accuracy := "1-5 meters";
          description := "Reverse Helmert transformation. Accuracy similar to forward transformation";
          use_case := "Publishing Ghana survey data in international standard format" |}) ].

(** The generic accuracy block of [transform_coordinates]. *)
Definition generic_accuracy : accuracy_info :=
  {| accuracy := "1-5 meters";
     description := "Standard transformation accuracy for properly defined CRS";
     use_case := "General GIS and surveying applications" |}.

(** [CRS_DEFINITIONS.get(code)], with the code it was found under.  The keys
    are strings, so no other object finds an entry; a list or a dict cannot
    be hashed. *)
Definition crs_lookup (code : pyval) : exc (option (string * string)) :=
  match code with
  | VStr s => Return (pair s <$> CRS_DEFINITIONS !! s)
  | VList _ | VDict _ => Raise (TypeError ("unhashable type: '" ++ type_name code ++ "'"))
  | _ => Return None
  end.

(** ** UTM zone selection *)

Definition get_utm_zone (longitude : pyval) : exc string :=
  a ← py_le (VInt (-6)) longitude;
  b ← (if a : bool then py_lt longitude (VInt 0) else Return false);
  if b : bool then Return "UTM_30N"
  else
    c ← py_between 0 longitude 6;
    if c : bool then Return "UTM_31N" else Return "UTM_30N".

(** ** Convergence and scale factor *)

Section Kernel.

(** The C library: [sin], [cos], [tan], [atan] and [pow] on doubles. *)
Variables c_sin c_cos c_tan c_atan : float -> float.
Variable c_pow : float -> float -> float.

(** The wrapper of the [math] module around a C function that cannot
    overflow: a NaN made from a number, or an infinity made from a finite
    number, is a domain error. *)
Definition math_1 (func : float -> float) (x : float) : exc float :=
  let r := func x in
  if F64.is_nan r && negb (F64.is_nan x) then Raise (ValueError "math domain error")
  else if F64.is_inf r && F64.is_finite x then Raise (ValueError "math domain error")
  else Return r.

Definition math_sin : float -> exc float := math_1 c_sin.
Definition math_cos : float -> exc float := math_1 c_cos.
Definition math_tan : float -> exc float := math_1 c_tan.
Definition math_atan : float -> exc float := math_1 c_atan.
Definition math_sqrt : float -> exc float := math_1 F64.sqrt.

Definition degToRad : float := F64.div F64.pi (F64.of_Z 180).
Definition radToDeg : float := F64.div (F64.of_Z 180) F64.pi.

Definition math_radians (v : pyval) : exc float :=
  x ← as_double v; Return (F64.mul x degToRad).

Definition math_degrees (v : pyval) : exc float :=
  x ← as_double v; Return (F64.mul x radToDeg).

(** [x ** n] for a float [x] and the int literals 2 and 4 of this program
    (a positive even exponent): NaN, infinities, zeros and ±1 are answered
    without the C library; an infinite result of [pow] is an overflow. *)
Definition float_pow (x : float) (n : Z) : exc float :=
  match x with
  | S754_nan => Return x
  | S754_infinity _ => Return F64.inf
  | S754_zero _ => Return (S754_zero false)
  | S754_finite _ m e =>
      let ax := S754_finite false m e in
      if SFeqb ax (F64.of_Z 1) then Return (F64.of_Z 1)
      else
        let r := c_pow ax (F64.of_Z n) in
        if F64.is_inf r
        then Raise (OverflowError "(34, 'Numerical result out of range')")
        else Return r
  end.

(** [a / b] on floats. *)
Definition float_div (a b : float) : exc float :=
  if F64.is_zero b then Raise (ZeroDivisionError "float division by zero")
  else Return (F64.div a b).

Definition calculate_convergence (lat lon : pyval) (central_meridian : Z) : exc float :=
  lat_rad ← math_radians lat;
  delta_lon ← py_sub lon (VInt central_meridian);
  dr ← math_radians delta_lon;
  t ← math_tan dr;
  s ← math_sin lat_rad;
  convergence ← math_atan (F64.mul t s);
  math_degrees (VFloat convergence).

(** The default [k0 = 0.9996] is the only one used. *)
Definition calculate_scale_factor (lat lon : pyval) (central_meridian : Z) : exc float :=
  let k0 := F64.of_decimal false 9996 (-4) in
  lat_rad ← math_radians lat;
  d ← py_sub lon (VInt central_meridian);
  delta_lon_rad ← math_radians d;
  let a := F64.of_Z 6378137 in
  let e2 := F64.of_decimal false 669438 (-8) in
  let lit := F64.of_Z in
  (* N = a / math.sqrt(1 - e2 * math.sin(lat_rad)**2) *)
  s ← math_sin lat_rad;
  s2 ← float_pow s 2;
  q ← math_sqrt (F64.sub (lit 1) (F64.mul e2 s2));
  N ← float_div a q;
  (* T = math.tan(lat_rad)**2 *)
  t ← math_tan lat_rad;
  T ← float_pow t 2;
  (* C = e2 * math.cos(lat_rad)**2 / (1 - e2) *)
  c ← math_cos lat_rad;
  c2 ← float_pow c 2;
  C ← float_div (F64.mul e2 c2) (F64.sub (lit 1) e2);
  (* A = delta_lon_rad * math.cos(lat_rad) *)
  c' ← math_cos lat_rad;
  let A := F64.mul delta_lon_rad c' in
  (* k = k0 * (1 + (1 + C) * A**2 / 2
                + (5 - 4*T + 42*C + 13*C**2 - 28*e2) * A**4 / 24) *)
  A2 ← float_pow A 2;
  t1 ← float_div (F64.mul (F64.add (lit 1) C) A2) (lit 2);
  C2 ← float_pow C 2;
  let poly :=
    F64.sub
      (F64.add (F64.add (F64.sub (lit 5) (F64.mul (lit 4) T)) (F64.mul (lit 42) C))
               (F64.mul (lit 13) C2))
      (F64.mul (lit 28) e2) in
  A4 ← float_pow A 4;
  t2 ← float_div (F64.mul poly A4) (lit 24);
  Return (F64.mul k0 (F64.add (F64.add (lit 1) t1) t2)).

End Kernel.

(** ** Results *)

Record point := { p_crs : string; p_x : pyval; p_y : pyval }.

Record metadata := { m_zone : string; m_convergence : float; m_scale_factor : float }.

(** The Transformation Result; [r_metadata] is [None] when the key
    ['metadata'] is not set. *)
Record transform_result := {
  r_source : point;
  r_target : point;
  r_metadata : option metadata;
  r_accuracy : accuracy_info
}.

Record error_entry := { e_row : Z; e_error : string }.

(** A row of the CSV reader, and a row of the success list: a dict whose
    keys are the column names, and [None] for the cells a line has beyond the
    header. *)
Abbreviation csv_row := (gmap (option string) pyval).

Record batch_result := {
  b_success : bool;
  b_total_processed : Z;
  b_errors : list error_entry;
  b_data : list csv_row
}.

(** What iterating the [csv.DictReader] does: it yields a row and goes on,
    stops at the end of the file, or raises. *)
Inductive reader :=
  | Rend
  | Rrow (row : csv_row) (rest : reader)
  | Rerror (e : exn).

(** The reader that yields [rows] and then behaves as [last]. *)
Fixpoint yields (rows : list csv_row) (last : reader) : reader :=
  match rows with
  | [] => last
  | row :: rest => Rrow row (yields rest last)
  end.

(** The rows a reader yields, and the error it ends with, if any. *)
Fixpoint rows_of (r : reader) : list csv_row :=
  match r with
  | Rrow row rest => row :: rows_of rest
  | _ => []
  end.

Fixpoint error_of (r : reader) : option exn :=
  match r with
  | Rrow _ rest => error_of rest
  | Rend => None
  | Rerror e => Some e
  end.

Record validation := { valid : bool; warnings : list string; errors : list string }.

(** ** The handlers *)

Section Handlers.

Variables c_sin c_cos c_tan c_atan : float -> float.
Variable c_pow : float -> float -> float.

(** pyproj: [Transformer.from_crs(source_def, target_def, always_xy=True)]
    on two definitions (a string, or [None]) and
    [transformer.transform(x, y)]. *)
Variable Transformer : Type.
Variable from_crs : option string -> option string -> exc Transformer.
Variable transform : Transformer -> pyval -> pyval -> exc (pyval * pyval).

Variable unicode : unicode_db.

(** [f"{source_crs}_to_{target_crs}"] and the accuracy block. *)
Definition transform_key (source_crs target_crs : string) : string :=
  source_crs ++ "_to_" ++ target_crs.

Definition accuracy_for (source_crs target_crs : string) : accuracy_info :=
  default generic_accuracy (TRANSFORMATION_ACCURACY !! transform_key source_crs target_crs).

(** Lines 193-201: the metadata block. *)
Definition metadata_for (source_crs target_crs : string) (x y : pyval)
  : exc (option metadata) :=
  if String.eqb target_crs "UTM_30N" || String.eqb target_crs "UTM_31N" then
    let central_meridian := if String.eqb target_crs "UTM_30N" then -3 else 3 in
    if String.eqb source_crs "WGS84" then
      conv ← calculate_convergence c_sin c_tan c_atan y x central_meridian;
      k ← calculate_scale_factor c_sin c_cos c_tan c_pow y x central_meridian;
      Return (Some {| m_zone := target_crs;
                      m_convergence := F64.round 6 conv;
                      m_scale_factor := F64.round 8 k |})
    else Return None
  else Return None.

(** Lines 157-162: automatic zone selection. *)
Definition select_target (source_crs target_crs target_def : string) (coordinates : pyval)
  : exc (string * option string) :=
  if String.eqb source_crs "WGS84" && String.prefix "UTM" target_crs then
    if String.eqb target_crs "UTM_AUTO" then
      lon ← (a ← py_get coordinates "lon";
             if truthy a then Return a else py_get coordinates "x");
      zone ← get_utm_zone lon;
      Return (zone, CRS_DEFINITIONS !! zone)
    else Return (target_crs, Some target_def)
  else Return (target_crs, Some target_def).

(** Lines 167-171: the pair is read under the names of the source
    system. *)
Definition extract_coordinates (source_crs : string) (coordinates : pyval)
  : exc (pyval * pyval) :=
  if String.eqb source_crs "WGS84"
  then x ← py_get coordinates "lon"; y ← py_get coordinates "lat"; Return (x, y)
  else x ← py_get coordinates "x"; y ← py_get coordinates "y"; Return (x, y).

(** Lines 179-213: the result, from the pair read and the pair pyproj
    returned. *)
Definition build_result (source_crs target_crs : string)
    (x y transformed_x transformed_y : pyval) : exc transform_result :=
  tx ← py_round transformed_x 6;
  ty ← py_round transformed_y 6;
  md ← metadata_for source_crs target_crs x y;
  Return {| r_source := {| p_crs := source_crs; p_x := x; p_y := y |};
            r_target := {| p_crs := target_crs; p_x := tx; p_y := ty |};
            r_metadata := md;
            r_accuracy := accuracy_for source_crs target_crs |}.

(** [POST /api/transform] on the decoded request body. *)
Definition transform_coordinates (data : pyval) : response transform_result :=
  handle (
    source_crs ← py_get data "source_crs";
    target_crs ← py_get data "target_crs";
    coordinates ← py_get data "coordinates";
    if negb (truthy source_crs && truthy target_crs && truthy coordinates)
    then Return (Error 400 "Missing required parameters")
    else
      source_def ← crs_lookup source_crs;
      target_def ← crs_lookup target_crs;
      match source_def, target_def with
      | Some (source_crs, source_def), Some (target_crs, target_def) =>
          '(target_crs, target_def) ←
            select_target source_crs target_crs target_def coordinates;
          transformer ← from_crs (Some source_def) target_def;
          '(x, y) ← extract_coordinates source_crs coordinates;
          if is_None x || is_None y
          then Return (Error 400 "Invalid coordinate values")
          else
            '(transformed_x, transformed_y) ← transform transformer x y;
            result ← build_result source_crs target_crs x y transformed_x transformed_y;
            Return (Ok result)
      | _, _ => Return (Error 400 "Invalid CRS specified")
      end).

(** *** Batch *)

(** [row.get(k1) or row.get(k2) or ...]: the first truthy cell, or the
    last one when none is. *)
Fixpoint first_of (row : csv_row) (keys : list string) : pyval :=
  match keys with
  | [] => VNone
  | [k] => default VNone (row !! Some k)
  | k :: rest =>
      let v := default VNone (row !! Some k) in
      if truthy v then v else first_of row rest
  end.

(** Lines 253-270: the body of the per-row [try]. *)
Definition process_row (transformer : Transformer) (source_crs target_crs : string)
    (row : csv_row) : exc csv_row :=
  '(x, y) ← (if String.eqb source_crs "WGS84"
             then x ← py_float unicode (first_of row ["lon"; "longitude"; "x"; "X"]);
                  y ← py_float unicode (first_of row ["lat"; "latitude"; "y"; "Y"]);
                  Return (x, y)
             else x ← py_float unicode (first_of row ["x"; "X"; "easting"]);
                  y ← py_float unicode (first_of row ["y"; "Y"; "northing"]);
                  Return (x, y));
  '(tx, ty) ← transform transformer (VFloat x) (VFloat y);
  rx ← py_round tx 6;
  ry ← py_round ty 6;
  Return (<[Some "target_crs" := VStr target_crs]>
            (<[Some "transformed_y" := ry]> (<[Some "transformed_x" := rx]> row))).

(** Lines 251-273: the loop over [enumerate(csv_input, start=idx)], with
    the two lists it appends to.  The reader is advanced in the [for]
    header, outside the per-row [try]: an error it raises leaves the loop. *)
Fixpoint batch_loop (transformer : Transformer) (source_crs target_crs : string)
    (idx : Z) (csv_input : reader)
    (results : list csv_row) (errs : list error_entry)
  : exc (list csv_row * list error_entry) :=
  match csv_input with
  | Rend => Return (results, errs)
  | Rerror e => Raise e
  | Rrow row rest =>
      match process_row transformer source_crs target_crs row with
      | Return result_row =>
          batch_loop transformer source_crs target_crs (idx + 1) rest
            (results ++ [result_row]) errs
      | Raise e =>
          batch_loop transformer source_crs target_crs (idx + 1) rest
            results (errs ++ [{| e_row := idx; e_error := exn_str e |}])
      end
  end.

(** A row with cells beyond the header. *)
Definition has_surplus (row : csv_row) : bool := bool_decide (is_Some (row !! None)).

(** [jsonify] of the batch result.  Flask writes the keys of every dict in
    sorted order; a row of the success list has the three added columns, so
    when it also has the key [None] the keys cannot be compared. *)
Definition jsonify_batch (body : batch_result) : exc (response batch_result) :=
  if existsb has_surplus (b_data body)
  then Raise (TypeError "'<' not supported between instances of 'NoneType' and 'str'")
  else Return (Ok body).

(** [POST /api/transform-batch]: [file] is the uploaded file ([None] when no
    file was sent), as decoding it goes: an error, or the text, which stands
    here as the reader [csv.DictReader] makes of it; the two codes are the
    form fields. *)
Definition transform_batch (file : option (exc reader))
    (source_crs target_crs : option string) : response batch_result :=
  handle (
    match file with
    | None => Return (Error 400 "No file uploaded")
    | Some decoded =>
        let falsy (o : option string) := negb (truthy (from_option VStr VNone o)) in
        if falsy source_crs || falsy target_crs
        then Return (Error 400 "Missing CRS parameters")
        else
          let source_crs := default "" source_crs in
          let target_crs := default "" target_crs in
          csv_input ← decoded;
          match CRS_DEFINITIONS !! source_crs, CRS_DEFINITIONS !! target_crs with
          | Some source_def, Some target_def =>
              transformer ← from_crs (Some source_def) (Some target_def);
              '(results, errs) ←
                batch_loop transformer source_crs target_crs 1 csv_input [] [];
              jsonify_batch {| b_success := true;
                               b_total_processed := Z.of_nat (length results);
                               b_errors := errs;
                               b_data := results |}
          | _, _ => Return (Error 400 "Invalid CRS specified")
          end
    end).

(** *** Validation *)

Definition add_error (msg : string) (v : validation) : validation :=
  {| valid := false; warnings := warnings v; errors := errors v ++ [msg] |}.

Definition add_warning (msg : string) (v : validation) : validation :=
  {| valid := valid v; warnings := warnings v ++ [msg]; errors := errors v |}.

(** [if not (lo <= v <= hi): update] *)
Definition unless_between (lo : Z) (v : pyval) (hi : Z)
    (update : validation -> validation) (val : validation) : exc validation :=
  b ← py_between lo v hi;
  Return (if b : bool then val else update val).

(** [POST /api/validate] on the decoded request body. *)
Definition validate_coordinates (data : pyval) : response validation :=
  handle (
    crs ← py_get data "crs";
    x ← py_get data "x";
    y ← py_get data "y";
    let validation := {| valid := true; warnings := []; errors := [] |} in
    validation ←
      (if py_eq_str crs "WGS84" then
         v ← unless_between (-180) x 180
               (add_error "Longitude must be between -180 and 180 degrees") validation;
         v ← unless_between (-90) y 90
               (add_error "Latitude must be between -90 and 90 degrees") v;
         v ← unless_between (-4) x 2
               (add_warning "Longitude outside Ghana bounds (approximately -4° to 2°)") v;
         unless_between 4 y 12
           (add_warning "Latitude outside Ghana bounds (approximately 4° to 12°)") v
       else if py_eq_str crs "UTM_30N" || py_eq_str crs "UTM_31N" then
         v ← unless_between 160000 x 840000
               (add_warning "Easting outside typical UTM zone range") validation;
         unless_between 0 y 10000000
           (add_warning "Northing outside typical Northern hemisphere range") v
       else if py_eq_str crs "GHANA_GRID" then
         v ← unless_between 0 x 500000
               (add_warning "Easting outside typical Ghana Grid range") validation;
         unless_between 0 y 1000000
           (add_warning "Northing outside typical Ghana Grid range") v
       else Return validation);
    Return (Ok validation)).

End Handlers.

(** ** Numbers as values: what the comparisons decide *)

(** The rational a number stands for; NaN and the infinities stand for
    none. *)
Definition num_value (n : num) : option Q :=
  match n with
  | NInt z => Some (inject_Z z)
  | NFloat f => F64.value f
  end.

(** [n ∈ [lo, hi]] *)
Definition in_interval (lo hi : Z) (n : num) : Prop :=
  match num_value n with
  | Some q => (inject_Z lo <= q)%Q /\ (q <= inject_Z hi)%Q
  | None => False
  end.

Definition le_result (c : option comparison) : bool :=
  match c with Some Lt | Some Eq => true | _ => false end.

(** The chained comparison on two numbers, without the exceptions. *)
Definition between (lo : Z) (n : num) (hi : Z) : bool :=
  le_result (num_compare (NInt lo) n) && le_result (num_compare n (NInt hi)).

(** ** Requests and stand-ins used in the examples *)

Definition registered (code : string) : Prop := is_Some (CRS_DEFINITIONS !! code).

(** [{"source_crs": source, "target_crs": target, "coordinates": coords}] *)
Definition transform_request (source target : string) (coords : pyval) : pyval :=
  VDict (list_to_map [("source_crs", VStr source); ("target_crs", VStr target);
                      ("coordinates", coords)]).

(** [{"lon": x, "lat": y}] and [{"x": x, "y": y}] *)
Definition lonlat (x y : pyval) : pyval := VDict (list_to_map [("lon", x); ("lat", y)]).
Definition xy (x y : pyval) : pyval := VDict (list_to_map [("x", x); ("y", y)]).

(** [{"crs": crs, "x": x, "y": y}] *)
Definition validate_request (crs x y : pyval) : pyval :=
  VDict (list_to_map [("crs", crs); ("x", x); ("y", y)]).

(** Stand-ins for pyproj, the C library and the Unicode database, to run
    the handlers on concrete requests: a transformer that answers its input
    as doubles, one that answers infinities for a latitude beyond the poles
    (what pyproj does from WGS84 to Web Mercator, where such a point cannot
    be projected) and its input otherwise, and constant C functions. *)
Module Standin.

Definition from_crs (source_def target_def : option string) : exc unit := Return tt.

Definition noop (t : unit) (x y : pyval) : exc (pyval * pyval) :=
  fx ← as_double x; fy ← as_double y; Return (VFloat fx, VFloat fy).

Definition beyond_poles (t : unit) (x y : pyval) : exc (pyval * pyval) :=
  match as_num y with
  | Some lat =>
      if between (-90) lat 90 then noop t x y
      else Return (VFloat F64.inf, VFloat F64.inf)
  | None => noop t x y
  end.

Definition unicode : unicode_db :=
  {| to_ascii := fun s => "?"; non_ascii_repr := fun s => "'" ++ s ++ "'" |}.

Definition c_fun (x : float) : float := S754_zero false.
Definition c_pow (x y : float) : float := S754_zero false.

End Standin.

(** ** The batch loop, row by row *)

Section BatchSpec.

Variable unicode : unicode_db.
Variable Transformer : Type.
Variable transform : Transformer -> pyval -> pyval -> exc (pyval * pyval).
Variable transformer : Transformer.
Variables source_crs target_crs : string.

(** The rows that succeed, transformed, in the order of the input. *)
Definition successes (rows : list csv_row) : list csv_row :=
  omap (fun row =>
          match process_row Transformer transform unicode transformer
                  source_crs target_crs row with
          | Return r => Some r
          | Raise _ => None
          end) rows.

(** The rows that fail, each with its position counted from [start], in
    the order of the input. *)
Fixpoint failures (start : Z) (rows : list csv_row) : list error_entry :=
  match rows with
  | [] => []
  | row :: rest =>
      match process_row Transformer transform unicode transformer
              source_crs target_crs row with
      | Return _ => failures (start + 1) rest
      | Raise e => {| e_row := start; e_error := exn_str e |} :: failures (start + 1) rest
      end
  end.

(** The error entry of the row at position [i] (from 0), when it fails. *)
Definition failure_at (i : nat) (row : csv_row) : option error_entry :=
  match process_row Transformer transform unicode transformer
          source_crs target_crs row with
  | Return _ => None
  | Raise e => Some {| e_row := Z.of_nat i + 1; e_error := exn_str e |}
  end.

(** A cell that is absent, [None] or the empty string. *)
Definition blank (row : csv_row) (key : string) : Prop :=
  row !! Some key = None \/ row !! Some key = Some VNone
  \/ row !! Some key = Some (VStr "").

(** The column names [process_row] tries for each axis, in order. *)
Definition x_names : list string :=
  if String.eqb source_crs "WGS84" then ["lon"; "longitude"; "x"; "X"]
  else ["x"; "X"; "easting"].

Definition y_names : list string :=
  if String.eqb source_crs "WGS84" then ["lat"; "latitude"; "y"; "Y"]
  else ["y"; "Y"; "northing"].

End BatchSpec.

(** ** Concrete requests *)

Module Examples.

(** The single-point handler and the batch handler on the stand-ins. *)
Abbreviation handler transform :=
  (transform_coordinates Standin.c_fun Standin.c_fun Standin.c_fun Standin.c_fun
     Standin.c_pow unit Standin.from_crs transform).
Abbreviation batch :=
  (transform_batch unit Standin.from_crs Standin.noop Standin.unicode).
Abbreviation row_result :=
  (process_row unit Standin.noop Standin.unicode tt).
Abbreviation loop :=
  (batch_loop unit Standin.noop Standin.unicode tt).

(** -1.23456789, -1.234568 and 5.0 *)
Definition lon : float := F64.of_decimal true 123456789 (-8).
Definition lon6 : float := F64.of_decimal true 1234568 (-6).
Definition lat : float := F64.of_Z 5.

(** A CSV of three rows whose second longitude is not a number. *)
Definition three_rows : list csv_row :=
  [ {[ Some "lon" := VStr "-1.5"; Some "lat" := VStr "5.0" ]};
    {[ Some "lon" := VStr "abc"; Some "lat" := VStr "5.0" ]};
    {[ Some "lon" := VStr "0.25"; Some "lat" := VStr "6.5" ]} ].

(** A row with a longitude column left empty and no other name for that
    axis. *)
Definition empty_lon : csv_row :=
  {[ Some "lon" := VStr ""; Some "lat" := VStr "5.0" ]}.

(** A row of the file "lon,lat" with a third cell. *)
Definition surplus_row : csv_row :=
  {[ Some "lon" := VStr "-1.5"; Some "lat" := VStr "5.0"; None := VList [VStr "7"] ]}.

End Examples.

(** ** The descriptive endpoints *)

(** The dictionary built by [get_crs_info] (lines 96-133). *)
Definition crs_info : gmap string (gmap string string) :=
  list_to_map
    [ ("WGS84",
       list_to_map
         [ ("name", "World Geodetic System 1984");
           ("type", "Geographic");
           ("units", "Degrees");
           ("description", "Global standard for GPS and international mapping");
           ("epsg", "EPSG:4326") ]);
      ("UTM_30N",
       list_to_map
         [ ("name", "UTM Zone 30 North");
           ("type", "Projected");
           ("units", "Meters");
           ("description",
            "Universal Transverse Mercator projection for Western Ghana (6°W - 0°)");
           ("epsg", "EPSG:32630") ]);
      ("UTM_31N",
       list_to_map
         [ ("name", "UTM Zone 31 North");
           ("type", "Projected");
           ("units", "Meters");
           ("description",
            "Universal Transverse Mercator projection for Eastern Ghana (0° - 6°E)");
           ("epsg", "EPSG:32631") ]);
      ("GHANA_GRID",
       list_to_map
         [ ("name", "Ghana National Grid (War Office)");
           ("type", "Projected");
           ("units", "Meters");
           ("description", "National coordinate system based on Clarke 1880 ellipsoid");
           ("datum", "Accra Datum");
           ("projection", "Transverse Mercator") ]);
      ("WEB_MERCATOR",
       list_to_map
         [ ("name", "Web Mercator");
           ("type", "Projected");
           ("units", "Meters");
           ("description", "Spherical Mercator projection used by web mapping services");
           ("epsg", "EPSG:3857") ]) ].

(** [GET /api/crs-info] *)
Definition get_crs_info : response (gmap string (gmap string string)) := Ok crs_info.

(** [GET /api/accuracy-info] *)
Definition get_accuracy_info : response (gmap string accuracy_info) :=
  Ok TRANSFORMATION_ACCURACY.

(** ** Vocabulary of the further properties *)

(** The three columns [process_row] writes. *)
Definition added_columns : list (option string) :=
  [Some "transformed_x"; Some "transformed_y"; Some "target_crs"].

(** Error entries renumbered after [k] earlier rows. *)
Definition shift_rows (k : Z) (es : list error_entry) : list error_entry :=
  map (fun e => {| e_row := e_row e + k; e_error := e_error e |}) es.

(** The name under which the handler reads each axis of the pair. *)
Definition x_key (source_crs : string) : string :=
  if String.eqb source_crs "WGS84" then "lon" else "x".
Definition y_key (source_crs : string) : string :=
  if String.eqb source_crs "WGS84" then "lat" else "y".

(** The messages of the three 400 answers of the single-point handler. *)
Definition transform_400 : list string :=
  ["Missing required parameters"; "Invalid CRS specified"; "Invalid coordinate values"].

(** An odd function on doubles, as [tan] and [atan] are. *)
Definition odd_function (f : float -> float) : Prop :=
  forall x, f (SFopp x) = SFopp (f x).

(** A stand-in for the odd C functions. *)
Definition c_identity (x : float) : float := x.

(** * Properties *)

(** ** Comparisons *)

Lemma compare_Z_value f z q :
  F64.value f = Some q -> F64.compare_Z f z = Some (q ?= inject_Z z)%Q.
Proof.
  destruct f as [s| | |s m e]; simpl; try discriminate.
  - intros [= <-]. f_equal. unfold Qcompare. simpl. now rewrite Z.mul_1_r.
  - intros [= <-]. f_equal. unfold Qcompare.
    destruct (0 <=? e) eqn:He; simpl Qnum; simpl Qden.
    + now rewrite !Z.mul_1_r.
    + rewrite Z.mul_1_r, Z2Pos.id; [reflexivity|].
      apply Z.leb_gt in He. apply Z.pow_pos_nonneg; lia.
Qed.

Lemma compare_Z_no_value f z :
  F64.value f = None ->
  F64.compare_Z f z = None \/
  (f = F64.inf /\ F64.compare_Z f z = Some Gt) \/
  (f = F64.neg_inf /\ F64.compare_Z f z = Some Lt).
Proof.
  destruct f as [s|[]| |s m e]; simpl; try discriminate; intros _; auto.
Qed.

Lemma le_result_Qcompare (p q : Q) : le_result (Some (p ?= q)%Q) = true <-> (p <= q)%Q.
Proof.
  rewrite Qle_alt. simpl. destruct (p ?= q)%Q; split; congruence.
Qed.

Lemma le_result_Zcompare (a b : Z) : le_result (Some (a ?= b)) = true <-> a <= b.
Proof.
  unfold Z.le. simpl. destruct (a ?= b); split; congruence.
Qed.

Lemma as_num_of_num n : as_num (of_num n) = Some n.
Proof. now destruct n. Qed.

Lemma py_between_num lo n hi :
  py_between lo (of_num n) hi = Return (between lo n hi).
Proof.
  unfold py_between, py_le, between. simpl as_num. rewrite as_num_of_num.
  unfold le_result.
  destruct (num_compare (NInt lo) n) as [[]|]; reflexivity.
Qed.

Lemma between_in_interval lo n hi :
  between lo n hi = true <-> in_interval lo hi n.
Proof.
  unfold between, in_interval. rewrite andb_true_iff.
  destruct n as [z|f]; simpl num_value.
  - simpl num_compare. rewrite !le_result_Zcompare, !Zle_Qle. reflexivity.
  - simpl num_compare. destruct (F64.value f) as [q|] eqn:Hv.
    + rewrite !(compare_Z_value f _ q Hv). simpl option_map.
      rewrite Qcompare_antisym. rewrite !le_result_Qcompare. reflexivity.
    + split; [|tauto]. intros [H1 H2].
      destruct (compare_Z_no_value f lo Hv) as [E|[[-> E]|[-> E]]];
        try (rewrite E in H1; discriminate H1).
      simpl in H2. discriminate H2.
Qed.

Lemma between_false_iff lo n hi :
  between lo n hi = false <-> ~ in_interval lo hi n.
Proof.
  rewrite <- between_in_interval. destruct (between lo n hi); split; congruence.
Qed.

(** ** Validation *)

Lemma unless_between_num lo n hi update v :
  unless_between lo (of_num n) hi update v
  = Return (if between lo n hi then v else update v).
Proof. unfold unless_between. now rewrite py_between_num. Qed.

Lemma py_eq_str_false v s : v <> VStr s -> py_eq_str v s = false.
Proof.
  destruct v; try reflexivity. simpl. intros H.
  apply String.eqb_neq. congruence.
Qed.

(** The report for a numeric pair, read off the code branch by branch. *)
Lemma validate_numeric data crs (x y : num) :
  py_get data "crs" = Return crs ->
  py_get data "x" = Return (of_num x) ->
  py_get data "y" = Return (of_num y) ->
  exists v,
    validate_coordinates data = Ok v /\
    (valid v = true <-> errors v = []) /\
    (py_eq_str crs "WGS84" = false -> errors v = [] /\ valid v = true) /\
    (py_eq_str crs "WGS84" = true ->
     errors v =
       ((if between (-180) x 180 then []
         else ["Longitude must be between -180 and 180 degrees"]) ++
        (if between (-90) y 90 then []
         else ["Latitude must be between -90 and 90 degrees"]))%list /\
     warnings v =
       ((if between (-4) x 2 then []
         else ["Longitude outside Ghana bounds (approximately -4° to 2°)"]) ++
        (if between 4 y 12 then []
         else ["Latitude outside Ghana bounds (approximately 4° to 12°)"]))%list).
Proof.
  intros Hc Hx Hy. unfold validate_coordinates. rewrite Hc, Hx, Hy. simpl mbind.
  unfold mbind, exc_bind.
  destruct (py_eq_str crs "WGS84") eqn:Hw.
  - rewrite !unless_between_num.
    destruct (between (-180) x 180), (between (-90) y 90),
      (between (-4) x 2), (between 4 y 12); simpl;
      eexists; (split; [reflexivity|]); simpl;
      repeat split; try discriminate; try reflexivity; intros; discriminate.
  - destruct (py_eq_str crs "UTM_30N" || py_eq_str crs "UTM_31N").
    + rewrite !unless_between_num.
      destruct (between 160000 x 840000), (between 0 y 10000000); simpl;
        eexists; (split; [reflexivity|]); simpl;
        repeat split; try discriminate; try reflexivity; intros; discriminate.
    + destruct (py_eq_str crs "GHANA_GRID").
      * rewrite !unless_between_num.
        destruct (between 0 x 500000), (between 0 y 1000000); simpl;
          eexists; (split; [reflexivity|]); simpl;
          repeat split; try discriminate; try reflexivity; intros; discriminate.
      * simpl. eexists; (split; [reflexivity|]); simpl.
        repeat split; try discriminate; try reflexivity; intros; discriminate.
Qed.

(** C6: for every CRS code and numeric pair, the Validation Report has
    [valid] true exactly when its list of hard errors is empty; and for every
    code other than 'WGS84' (a projected system, an unknown code, or an object
    that is not a string) the list of hard errors is empty and the report is
    valid. *)
Theorem validate_valid_iff_no_errors data crs (x y : num) :
  py_get data "crs" = Return crs ->
  py_get data "x" = Return (of_num x) ->
  py_get data "y" = Return (of_num y) ->
  exists v,
    validate_coordinates data = Ok v /\
    (valid v = true <-> errors v = []) /\
    (crs <> VStr "WGS84" -> errors v = [] /\ valid v = true).
Proof.
  intros Hc Hx Hy.
  destruct (validate_numeric data crs x y Hc Hx Hy) as (v & Hv & Hiff & Hother & _).
  exists v. split; [exact Hv|]. split; [exact Hiff|].
  intros Hne. apply Hother, py_eq_str_false, Hne.
Qed.

Lemma In_cond_singleton (b c : bool) (m1 m2 : string) :
  m1 <> m2 ->
  (In m1 ((if b then [] else [m1]) ++ (if c then [] else [m2]))%list <-> b = false) /\
  (In m2 ((if b then [] else [m1]) ++ (if c then [] else [m2]))%list <-> c = false).
Proof.
  intros Hne. destruct b, c; simpl; split; split; intros H;
    try reflexivity; try discriminate; try tauto;
    repeat (destruct H as [H|H]; try congruence; try contradiction).
Qed.

(** C7: for CRS 'WGS84' and a numeric pair, the longitude error is recorded
    exactly when x is outside [-180, 180], the latitude error exactly when y
    is outside [-90, 90], the Ghana longitude warning exactly when x is
    outside [-4, 2] and the Ghana latitude warning exactly when y is outside
    [4, 12]; (181, 0) is invalid with the longitude error only, and (180, 0)
    is valid with no error and with the longitude warning. *)
Theorem validate_wgs84_bounds :
  (forall data (x y : num),
     py_get data "crs" = Return (VStr "WGS84") ->
     py_get data "x" = Return (of_num x) ->
     py_get data "y" = Return (of_num y) ->
     exists v,
       validate_coordinates data = Ok v /\
       (In "Longitude must be between -180 and 180 degrees" (errors v)
        <-> ~ in_interval (-180) 180 x) /\
       (In "Latitude must be between -90 and 90 degrees" (errors v)
        <-> ~ in_interval (-90) 90 y) /\
       (In "Longitude outside Ghana bounds (approximately -4° to 2°)" (warnings v)
        <-> ~ in_interval (-4) 2 x) /\
       (In "Latitude outside Ghana bounds (approximately 4° to 12°)" (warnings v)
        <-> ~ in_interval 4 12 y)) /\
  (exists v,
     validate_coordinates (validate_request (VStr "WGS84") (VInt 181) (VInt 0)) = Ok v /\
     valid v = false /\
     errors v = ["Longitude must be between -180 and 180 degrees"]) /\
  (exists v,
     validate_coordinates (validate_request (VStr "WGS84") (VInt 180) (VInt 0)) = Ok v /\
     valid v = true /\
     errors v = [] /\
     In "Longitude outside Ghana bounds (approximately -4° to 2°)" (warnings v)).
Proof.
  split; [|split].
  - intros data x y Hc Hx Hy.
    destruct (validate_numeric data _ x y Hc Hx Hy) as (v & Hv & _ & _ & Hw).
    destruct (Hw eq_refl) as [He Hwarn]. exists v. split; [exact Hv|].
    rewrite He, Hwarn, <- !between_false_iff.
    pose proof (In_cond_singleton (between (-180) x 180) (between (-90) y 90)
                  "Longitude must be between -180 and 180 degrees"
                  "Latitude must be between -90 and 90 degrees" ltac:(congruence)) as He'.
    pose proof (In_cond_singleton (between (-4) x 2) (between 4 y 12)
                  "Longitude outside Ghana bounds (approximately -4° to 2°)"
                  "Latitude outside Ghana bounds (approximately 4° to 12°)"
                  ltac:(congruence)) as Hw'.
    destruct He' as [E1 E2], Hw' as [W1 W2]. auto.
  - eexists. split; [vm_compute; reflexivity|]. split; reflexivity.
  - eexists. split; [vm_compute; reflexivity|]. repeat split. simpl. auto.
Qed.

(** ** The single-point handler *)

Lemma registered_not_auto code d :
  CRS_DEFINITIONS !! code = Some d -> String.eqb code "UTM_AUTO" = false.
Proof.
  intros H. destruct (String.eqb_spec code "UTM_AUTO") as [->|]; [|reflexivity].
  vm_compute in H. discriminate H.
Qed.

Lemma registered_truthy code d :
  CRS_DEFINITIONS !! code = Some d -> truthy (VStr code) = true.
Proof.
  intros H. simpl. destruct (String.eqb_spec code "") as [->|]; [|reflexivity].
  vm_compute in H. discriminate H.
Qed.

Lemma crs_lookup_Some v s d :
  crs_lookup v = Return (Some (s, d)) -> v = VStr s /\ CRS_DEFINITIONS !! s = Some d.
Proof.
  destruct v; simpl; try discriminate.
  destruct (CRS_DEFINITIONS !! s0) eqn:E; simpl; [|discriminate].
  intros [= -> ->]. auto.
Qed.

Lemma crs_lookup_registered s d :
  CRS_DEFINITIONS !! s = Some d -> crs_lookup (VStr s) = Return (Some (s, d)).
Proof. intros H. simpl. now rewrite H. Qed.

Lemma select_target_registered source target tdef coords :
  CRS_DEFINITIONS !! target = Some tdef ->
  select_target source target tdef coords = Return (target, Some tdef).
Proof.
  intros H. unfold select_target. rewrite (registered_not_auto _ _ H).
  destruct (_ && _); reflexivity.
Qed.

Lemma py_get_Return v key r : py_get v key = Return r -> exists d, v = VDict d.
Proof. destruct v; simpl; try discriminate. eauto. Qed.

Lemma extract_coordinates_truthy source coords x y :
  extract_coordinates source coords = Return (x, y) ->
  is_None x = false -> truthy coords = true.
Proof.
  unfold extract_coordinates. intros H Hx.
  destruct coords; try (destruct (source =? "WGS84")%string; discriminate H).
  simpl. destruct (bool_decide_reflect (d = ∅)) as [->|]; [|reflexivity].
  destruct (source =? "WGS84")%string; simpl in H; rewrite !lookup_empty in H;
    simpl in H; injection H as <- <-; discriminate Hx.
Qed.

Section SinglePoint.

Variables c_sin c_cos c_tan c_atan : float -> float.
Variable c_pow : float -> float -> float.
Variable Transformer : Type.
Variable from_crs : option string -> option string -> exc Transformer.
Variable transform : Transformer -> pyval -> pyval -> exc (pyval * pyval).

Local Abbreviation handler :=
  (transform_coordinates c_sin c_cos c_tan c_atan c_pow Transformer from_crs transform).
Local Abbreviation result_of := (build_result c_sin c_cos c_tan c_atan c_pow).
Local Abbreviation metadata_of := (metadata_for c_sin c_cos c_tan c_atan c_pow).

(** The handler on a request with two registered codes and a pair that
    pyproj transforms. *)
Lemma transform_run data source target sdef tdef coords t x y tx ty :
  py_get data "source_crs" = Return (VStr source) ->
  py_get data "target_crs" = Return (VStr target) ->
  py_get data "coordinates" = Return coords ->
  CRS_DEFINITIONS !! source = Some sdef ->
  CRS_DEFINITIONS !! target = Some tdef ->
  from_crs (Some sdef) (Some tdef) = Return t ->
  extract_coordinates source coords = Return (x, y) ->
  is_None x || is_None y = false ->
  transform t x y = Return (tx, ty) ->
  handler data =
    match result_of source target x y tx ty with
    | Return r => Ok r
    | Raise e => Error 500 (exn_str e)
    end.
Proof.
  intros Hs Ht Hc Hsd Htd Hf He Hn Htr.
  unfold transform_coordinates. rewrite Hs, Ht, Hc.
  unfold mbind, exc_bind. cbv beta iota.
  apply orb_false_elim in Hn as [Hnx Hny].
  rewrite (registered_truthy _ _ Hsd), (registered_truthy _ _ Htd),
    (extract_coordinates_truthy _ _ _ _ He Hnx).
  simpl negb. cbv iota.
  rewrite (crs_lookup_registered _ _ Hsd), (crs_lookup_registered _ _ Htd).
  rewrite (select_target_registered _ _ _ _ Htd), Hf, He, Hnx, Hny. simpl orb.
  cbv iota. rewrite Htr.
  destruct (build_result _ _ _ _ _ source target x y tx ty); reflexivity.
Qed.

(** Every successful response went through all the steps. *)
Lemma transform_ok_inv data r :
  handler data = Ok r ->
  exists source target sdef tdef coords t x y tx ty,
    py_get data "source_crs" = Return (VStr source) /\
    py_get data "target_crs" = Return (VStr target) /\
    py_get data "coordinates" = Return coords /\
    CRS_DEFINITIONS !! source = Some sdef /\
    CRS_DEFINITIONS !! target = Some tdef /\
    from_crs (Some sdef) (Some tdef) = Return t /\
    extract_coordinates source coords = Return (x, y) /\
    is_None x || is_None y = false /\
    transform t x y = Return (tx, ty) /\
    result_of source target x y tx ty = Return r.
Proof.
  unfold transform_coordinates. unfold mbind, exc_bind.
  destruct (py_get data "source_crs") as [vs|] eqn:Hs; [|discriminate].
  destruct (py_get data "target_crs") as [vt|] eqn:Ht; [|discriminate].
  destruct (py_get data "coordinates") as [coords|] eqn:Hc; [|discriminate].
  destruct (negb _); [discriminate|].
  destruct (crs_lookup vs) as [[[source sdef]|]|] eqn:Hls; try discriminate.
  2:{ destruct (crs_lookup vt) as [[|]|]; discriminate. }
  destruct (crs_lookup vt) as [[[target tdef]|]|] eqn:Hlt; try discriminate.
  apply crs_lookup_Some in Hls as [-> Hsd], Hlt as [-> Htd].
  rewrite (select_target_registered _ _ _ _ Htd).
  destruct (from_crs (Some sdef) (Some tdef)) as [t|] eqn:Hf; [|discriminate].
  destruct (extract_coordinates source coords) as [[x y]|] eqn:He; [|discriminate].
  destruct (is_None x || is_None y) eqn:Hn; [discriminate|].
  destruct (transform t x y) as [[tx ty]|] eqn:Htr; [|discriminate].
  destruct (build_result _ _ _ _ _ source target x y tx ty) as [r'|] eqn:Hb; [|discriminate].
  simpl. intros [= <-].
  exists source, target, sdef, tdef, coords, t, x, y, tx, ty. repeat split; assumption.
Qed.

(** C1: a request from 'WGS84' to 'UTM_AUTO' never reaches the zone
    selection: the code 'UTM_AUTO' is not in the registry, and the handler
    answers 400 'Invalid CRS specified' (or 'Missing required parameters'
    when the coordinates are empty) whatever the longitude is. *)
Theorem utm_auto_rejected (coords : pyval) :
  handler (transform_request "WGS84" "UTM_AUTO" coords)
  = Error 400 (if truthy coords then "Invalid CRS specified"
               else "Missing required parameters").
Proof.
  unfold transform_coordinates, transform_request.
  destruct (truthy coords) eqn:Hc; vm_compute; vm_compute in Hc; rewrite Hc; reflexivity.
Qed.

Lemma registered_cases code d :
  CRS_DEFINITIONS !! code = Some d ->
  code = "WGS84" \/ code = "UTM_30N" \/ code = "UTM_31N" \/
  code = "GHANA_GRID" \/ code = "WEB_MERCATOR".
Proof.
  intros H. apply elem_of_list_to_map_2 in H.
  repeat (apply elem_of_cons in H as [H|H]; [injection H as -> _; tauto|]).
  apply elem_of_nil in H. contradiction.
Qed.

Lemma build_result_inv source target x y tx ty r :
  result_of source target x y tx ty = Return r ->
  exists rx ry md,
    py_round tx 6 = Return rx /\
    py_round ty 6 = Return ry /\
    metadata_of source target x y = Return md /\
    r = {| r_source := {| p_crs := source; p_x := x; p_y := y |};
           r_target := {| p_crs := target; p_x := rx; p_y := ry |};
           r_metadata := md;
           r_accuracy := accuracy_for source target |}.
Proof.
  unfold build_result, mbind, exc_bind.
  destruct (py_round tx 6) as [rx|]; [|discriminate].
  destruct (py_round ty 6) as [ry|]; [|discriminate].
  destruct (metadata_for _ _ _ _ _ source target x y) as [md|]; [|discriminate].
  intros [= <-]. exists rx, ry, md. auto.
Qed.

Lemma metadata_for_inv source target x y m :
  metadata_of source target x y = Return m ->
  (m = None /\ ~ ((target = "UTM_30N" \/ target = "UTM_31N") /\ source = "WGS84")) \/
  (exists cm conv k,
      (target = "UTM_30N" /\ cm = -3 \/ target = "UTM_31N" /\ cm = 3) /\
      source = "WGS84" /\
      calculate_convergence c_sin c_tan c_atan y x cm = Return conv /\
      calculate_scale_factor c_sin c_cos c_tan c_pow y x cm = Return k /\
      m = Some {| m_zone := target;
                  m_convergence := F64.round 6 conv;
                  m_scale_factor := F64.round 8 k |}).
Proof.
  unfold metadata_for.
  destruct (String.eqb_spec target "UTM_30N") as [E30|N30];
    destruct (String.eqb_spec target "UTM_31N") as [E31|N31]; simpl orb; cbv iota;
    destruct (String.eqb_spec source "WGS84") as [Ew|Nw];
    try (intros [= <-]; left; split; [reflexivity|]; intros [[?|?] ?]; congruence).
  all: unfold mbind, exc_bind;
    match goal with
    | |- context [calculate_convergence _ _ _ ?a ?b ?c] =>
        destruct (calculate_convergence c_sin c_tan c_atan a b c) as [conv|] eqn:Hconv;
        [|discriminate];
        destruct (calculate_scale_factor c_sin c_cos c_tan c_pow a b c) as [k|] eqn:Hk;
        [|discriminate];
        intros [= <-]; right; exists c, conv, k
    end; repeat split; auto.
Qed.

Lemma extract_coordinates_wgs84 coords x y :
  extract_coordinates "WGS84" coords = Return (x, y) ->
  py_get coords "lon" = Return x /\ py_get coords "lat" = Return y.
Proof.
  unfold extract_coordinates. simpl String.eqb. cbv iota. unfold mbind, exc_bind.
  destruct (py_get coords "lon"); [|discriminate].
  destruct (py_get coords "lat"); [|discriminate].
  intros [= -> ->]. auto.
Qed.

(** C8: a successful Transformation Result has a metadata block exactly
    when its target is UTM_30N or UTM_31N and its source is WGS84; the block
    then holds the target zone, the convergence rounded to 6 decimals and
    the scale factor rounded to 8 decimals, both computed from the latitude
    and longitude of the request (not from the transformed pair) and from
    the central meridian -3 for UTM_30N and 3 for UTM_31N. *)
Theorem metadata_iff_wgs84_to_utm data r :
  handler data = Ok r ->
  let source := p_crs (r_source r) in
  let target := p_crs (r_target r) in
  (is_Some (r_metadata r) <->
   (target = "UTM_30N" \/ target = "UTM_31N") /\ source = "WGS84") /\
  (forall md, r_metadata r = Some md ->
     exists coords lon lat cm conv k,
       py_get data "coordinates" = Return coords /\
       py_get coords "lon" = Return lon /\
       py_get coords "lat" = Return lat /\
       (target = "UTM_30N" /\ cm = -3 \/ target = "UTM_31N" /\ cm = 3) /\
       calculate_convergence c_sin c_tan c_atan lat lon cm = Return conv /\
       calculate_scale_factor c_sin c_cos c_tan c_pow lat lon cm = Return k /\
       md = {| m_zone := target;
               m_convergence := F64.round 6 conv;
               m_scale_factor := F64.round 8 k |}).
Proof.
  intros H.
  apply transform_ok_inv in H
    as (source & target & sdef & tdef & coords & t & x & y & tx & ty &
        Hs & Ht & Hc & Hsd & Htd & Hf & He & Hn & Htr & Hb).
  apply build_result_inv in Hb as (rx & ry & m & _ & _ & Hm & ->). simpl.
  apply metadata_for_inv in Hm as [[-> Hno]|(cm & conv & k & Hcm & -> & Hconv & Hk & ->)].
  - split.
    + split; [intros [? [=]]|intros Hyes; contradiction].
    + intros md [=].
  - apply extract_coordinates_wgs84 in He as [Hlon Hlat]. split.
    + split; [intros _|eauto]. split; [|reflexivity].
      destruct Hcm as [[-> _]|[-> _]]; auto.
    + intros md [= <-]. exists coords, x, y, cm, conv, k. repeat split; assumption.
Qed.

(** C9: for every successful single-point transform the accuracy block is
    the record stored in the accuracy table under "{source}_to_{target}"
    when that key exists and the generic descriptor (label "1-5 meters")
    otherwise; a transform from UTM_30N to WEB_MERCATOR on a pair that pyproj
    transforms to numbers succeeds and carries the generic descriptor. *)
Theorem accuracy_block_lookup :
  (forall data r,
     handler data = Ok r ->
     let key := p_crs (r_source r) ++ "_to_" ++ p_crs (r_target r) in
     py_get data "source_crs" = Return (VStr (p_crs (r_source r))) /\
     py_get data "target_crs" = Return (VStr (p_crs (r_target r))) /\
     (forall a, TRANSFORMATION_ACCURACY !! key = Some a -> r_accuracy r = a) /\
     (TRANSFORMATION_ACCURACY !! key = None -> r_accuracy r = generic_accuracy)) /\
  (forall data coords t x y tx ty,
     py_get data "source_crs" = Return (VStr "UTM_30N") ->
     py_get data "target_crs" = Return (VStr "WEB_MERCATOR") ->
     py_get data "coordinates" = Return coords ->
     py_get coords "x" = Return x ->
     py_get coords "y" = Return y ->
     x <> VNone -> y <> VNone ->
     from_crs (Some "EPSG:32630") (Some "EPSG:3857") = Return t ->
     transform t x y = Return (tx, ty) ->
     is_Some (as_num tx) -> is_Some (as_num ty) ->
     exists r, handler data = Ok r /\ r_accuracy r = generic_accuracy) /\
  accuracy generic_accuracy = "1-5 meters".
Proof.
  split; [|split; [|reflexivity]].
  - intros data r H.
    apply transform_ok_inv in H
      as (source & target & sdef & tdef & coords & t & x & y & tx & ty &
          Hs & Ht & Hc & Hsd & Htd & Hf & He & Hn & Htr & Hb).
    apply build_result_inv in Hb as (rx & ry & m & _ & _ & Hm & ->). simpl.
    unfold accuracy_for, transform_key.
    split; [exact Hs|]. split; [exact Ht|]. split.
    + intros a ->. reflexivity.
    + intros ->. reflexivity.
  - intros data coords t x y tx ty Hs Ht Hc Hx Hy Hnx Hny Hf Htr [nx Hnx'] [ny Hny'].
    erewrite (transform_run data "UTM_30N" "WEB_MERCATOR" _ _ coords t x y tx ty);
      try eassumption; try reflexivity.
    + unfold build_result, py_round. rewrite Hnx', Hny'.
      destruct nx, ny; simpl; eexists; split; reflexivity.
    + unfold extract_coordinates. simpl String.eqb. cbv iota.
      rewrite Hx, Hy. reflexivity.
    + destruct x, y; try reflexivity; congruence.
Qed.

Lemma round_not_finite nd f : F64.is_finite f = false -> F64.round nd f = f.
Proof. destruct f; simpl; try reflexivity; discriminate. Qed.

(** C2, as the code has it: when pyproj answers a pair of floats of which
    one is NaN or infinite, and the metadata block (if any) is computed
    without an exception, the handler returns a successful Transformation
    Result whose target pair carries the non-finite value as it is; there
    is no check of the result. *)
Theorem nonfinite_result_returned
    data source target sdef tdef coords t x y (tx ty : float) md :
  py_get data "source_crs" = Return (VStr source) ->
  py_get data "target_crs" = Return (VStr target) ->
  py_get data "coordinates" = Return coords ->
  CRS_DEFINITIONS !! source = Some sdef ->
  CRS_DEFINITIONS !! target = Some tdef ->
  from_crs (Some sdef) (Some tdef) = Return t ->
  extract_coordinates source coords = Return (x, y) ->
  is_None x || is_None y = false ->
  transform t x y = Return (VFloat tx, VFloat ty) ->
  F64.is_finite tx = false \/ F64.is_finite ty = false ->
  metadata_of source target x y = Return md ->
  exists r,
    handler data = Ok r /\
    r_target r = {| p_crs := target;
                    p_x := VFloat (F64.round 6 tx);
                    p_y := VFloat (F64.round 6 ty) |} /\
    (F64.is_finite tx = false -> p_x (r_target r) = VFloat tx) /\
    (F64.is_finite ty = false -> p_y (r_target r) = VFloat ty).
Proof.
  intros Hs Ht Hc Hsd Htd Hf He Hn Htr _ Hm.
  rewrite (transform_run data source target sdef tdef coords t x y _ _
             Hs Ht Hc Hsd Htd Hf He Hn Htr).
  unfold build_result. simpl py_round. unfold mbind, exc_bind. rewrite Hm.
  eexists. split; [reflexivity|]. simpl. split; [reflexivity|].
  split; intros E; now rewrite round_not_finite.
Qed.

Lemma as_double_not_None v f : as_double v = Return f -> is_None v = false.
Proof. destruct v; try reflexivity. discriminate. Qed.

(** C5, as the code has it: for a registered CRS X and a numeric pair that
    the pyproj transformer between X and X answers unchanged, the handler
    returns [round(., 6)] of the pair as the target pair: a float is rounded
    to 6 decimals and an int is returned as it is (the rounding is not
    skipped), with no metadata and the generic accuracy block. *)
Theorem same_crs_rounds data X def coords t x y :
  py_get data "source_crs" = Return (VStr X) ->
  py_get data "target_crs" = Return (VStr X) ->
  py_get data "coordinates" = Return coords ->
  CRS_DEFINITIONS !! X = Some def ->
  from_crs (Some def) (Some def) = Return t ->
  extract_coordinates X coords = Return (x, y) ->
  is_Some (as_num x) -> is_Some (as_num y) ->
  transform t x y = Return (x, y) ->
  exists rx ry,
    py_round x 6 = Return rx /\
    py_round y 6 = Return ry /\
    (forall f, x = VFloat f -> rx = VFloat (F64.round 6 f)) /\
    (forall z, x = VInt z -> rx = VInt z) /\
    (forall f, y = VFloat f -> ry = VFloat (F64.round 6 f)) /\
    (forall z, y = VInt z -> ry = VInt z) /\
    handler data =
      Ok {| r_source := {| p_crs := X; p_x := x; p_y := y |};
            r_target := {| p_crs := X; p_x := rx; p_y := ry |};
            r_metadata := None;
            r_accuracy := generic_accuracy |}.
Proof.
  intros Hs Ht Hc Hd Hf He [nx Hx] [ny Hy] Htr.
  assert (exists rx, py_round x 6 = Return rx) as [rx Hrx].
  { unfold py_round. rewrite Hx. destruct nx; eauto. }
  assert (exists ry, py_round y 6 = Return ry) as [ry Hry].
  { unfold py_round. rewrite Hy. destruct ny; eauto. }
  exists rx, ry. split; [exact Hrx|]. split; [exact Hry|].
  split; [intros f ->; now injection Hrx|].
  split; [intros z ->; now injection Hrx|].
  split; [intros f ->; now injection Hry|].
  split; [intros z ->; now injection Hry|].
  rewrite (transform_run data X X def def coords t x y x y Hs Ht Hc Hd Hd Hf He).
  - unfold build_result. rewrite Hrx, Hry. unfold mbind, exc_bind.
    destruct (registered_cases _ _ Hd) as [-> | [-> | [-> | [-> | ->]]]]; reflexivity.
  - destruct x, y; try reflexivity; discriminate.
  - exact Htr.
Qed.

End SinglePoint.

(** ** The batch handler *)

Lemma reader_yields r :
  r = yields (rows_of r) (match error_of r with Some e => Rerror e | None => Rend end).
Proof. induction r as [|row rest IH|e]; simpl; congruence. Qed.

Section Batch.

Variable Transformer : Type.
Variable from_crs : option string -> option string -> exc Transformer.
Variable transform : Transformer -> pyval -> pyval -> exc (pyval * pyval).
Variable unicode : unicode_db.

Local Abbreviation batch := (transform_batch Transformer from_crs transform unicode).
Local Abbreviation loop := (batch_loop Transformer transform unicode).
Local Abbreviation row_result := (process_row Transformer transform unicode).
Local Abbreviation ok_rows := (successes unicode Transformer transform).
Local Abbreviation bad_rows := (failures unicode Transformer transform).
Local Abbreviation bad_row := (failure_at unicode Transformer transform).

Lemma successes_cons t source target row rest :
  ok_rows t source target (row :: rest)
  = match row_result t source target row with
    | Return r => r :: ok_rows t source target rest
    | Raise _ => ok_rows t source target rest
    end.
Proof.
  unfold successes. cbn [omap list_omap].
  destruct (process_row _ _ _ t source target row); reflexivity.
Qed.

Lemma batch_loop_spec t source target rows last :
  forall idx results errs,
    loop t source target idx (yields rows last) results errs
    = loop t source target (idx + Z.of_nat (length rows)) last
        (results ++ ok_rows t source target rows)
        (errs ++ bad_rows t source target idx rows)%list.
Proof.
  induction rows as [|row rest IH]; intros idx results errs.
  - simpl. now rewrite !app_nil_r, Z.add_0_r.
  - rewrite successes_cons. cbn [yields batch_loop failures length].
    replace (idx + Z.of_nat (S (length rest))) with (idx + 1 + Z.of_nat (length rest))
      by lia.
    destruct (process_row _ _ _ t source target row) as [r|e]; rewrite IH.
    + now rewrite <- app_assoc.
    + now rewrite <- app_assoc.
Qed.

Lemma batch_loop_end t source target rows :
  loop t source target 1 (yields rows Rend) [] []
  = Return (ok_rows t source target rows, bad_rows t source target 1 rows).
Proof. now rewrite batch_loop_spec. Qed.

Lemma batch_loop_error t source target rows e :
  loop t source target 1 (yields rows (Rerror e)) [] [] = Raise e.
Proof. now rewrite batch_loop_spec. Qed.

Lemma batch_loop_Return t source target csv_input results errs :
  loop t source target 1 csv_input [] [] = Return (results, errs) ->
  csv_input = yields (rows_of csv_input) Rend /\
  results = ok_rows t source target (rows_of csv_input) /\
  errs = bad_rows t source target 1 (rows_of csv_input).
Proof.
  rewrite (reader_yields csv_input) at 1.
  destruct (error_of csv_input) as [e|] eqn:He.
  - now rewrite batch_loop_error.
  - rewrite batch_loop_end. intros [= <- <-].
    split; [|split; reflexivity].
    rewrite (reader_yields csv_input) at 1. now rewrite He.
Qed.

Lemma successes_failures_length t source target rows start :
  (length (ok_rows t source target rows)
   + length (bad_rows t source target start rows) = length rows)%nat.
Proof.
  revert start. induction rows as [|row rest IH]; intros start; [reflexivity|].
  rewrite successes_cons. cbn [failures].
  specialize (IH (start + 1)).
  destruct (process_row _ _ _ t source target row); cbn [length]; lia.
Qed.

Lemma failures_elem t source target rows :
  forall start e,
    e ∈ bad_rows t source target start rows <->
    exists i row ex,
      rows !! i = Some row /\
      row_result t source target row = Raise ex /\
      e = {| e_row := start + Z.of_nat i; e_error := exn_str ex |}.
Proof.
  induction rows as [|row rest IH]; intros start e; simpl.
  - split; [intros H; inversion H|intros (i & row & ex & H & _); discriminate H].
  - destruct (process_row _ _ _ t source target row) as [r|ex] eqn:Hrow.
    + rewrite IH. split.
      * intros (i & row' & ex & Hi & Hr & ->). exists (S i), row', ex.
        repeat split; auto. f_equal. lia.
      * intros ([|i] & row' & ex & Hi & Hr & ->).
        { injection Hi as <-. congruence. }
        exists i, row', ex. repeat split; auto. f_equal. lia.
    + rewrite elem_of_cons, IH. split.
      * intros [->|(i & row' & ex' & Hi & Hr & ->)].
        { exists 0%nat, row, ex. repeat split; auto. f_equal. simpl. lia. }
        exists (S i), row', ex'. repeat split; auto. f_equal. lia.
      * intros ([|i] & row' & ex' & Hi & Hr & ->).
        { injection Hi as <-. left. rewrite Hrow in Hr. injection Hr as <-.
          f_equal. simpl. lia. }
        right. exists i, row', ex'. repeat split; auto. f_equal. lia.
Qed.

Lemma successes_elem t source target rows i row r :
  rows !! i = Some row ->
  row_result t source target row = Return r ->
  r ∈ ok_rows t source target rows.
Proof.
  intros Hi Hr. unfold successes. apply list_elem_of_omap.
  exists row. split; [eapply list_elem_of_lookup_2; eassumption|].
  now rewrite Hr.
Qed.

Lemma successes_in_order t source target rows :
  exists kept,
    kept `sublist_of` rows /\
    Forall2 (fun row r => row_result t source target row = Return r)
      kept (ok_rows t source target rows).
Proof.
  induction rows as [|row rest (kept & Hsub & Hall)].
  - exists []. split; constructor.
  - rewrite successes_cons.
    destruct (process_row _ _ _ t source target row) as [r|e] eqn:Hrow.
    + exists (row :: kept). split; [now constructor|]. now constructor.
    + exists kept. split; [now constructor|assumption].
Qed.

(** The error list, position by position. *)
Lemma failures_by_position t source target rows :
  bad_rows t source target 1 rows
  = omap id (imap (bad_row t source target) rows).
Proof.
  assert (forall start (f : nat -> csv_row -> option error_entry),
             (forall i row,
                 f i row = match row_result t source target row with
                           | Return _ => None
                           | Raise e => Some {| e_row := start + Z.of_nat i;
                                                e_error := exn_str e |}
                           end) ->
             bad_rows t source target start rows = omap id (imap f rows)) as Hgen.
  { induction rows as [|row rest IH]; intros start f Hf; [reflexivity|].
    cbn [failures imap omap list_omap]. rewrite (Hf 0%nat row).
    rewrite (IH (start + 1) (f ∘ S)).
    - destruct (process_row _ _ _ t source target row); simpl;
        rewrite ?Z.add_0_r; reflexivity.
    - intros i row'. unfold compose. rewrite Hf.
      destruct (process_row _ _ _ t source target row'); [reflexivity|].
      do 2 f_equal. lia. }
  apply Hgen. intros i row. unfold failure_at.
  destruct (process_row _ _ _ t source target row); [reflexivity|].
  do 2 f_equal. lia.
Qed.

(** The handler once the file is decoded, the codes are registered and the
    transformer is built. *)
Lemma batch_run csv_input source target sdef tdef t :
  CRS_DEFINITIONS !! source = Some sdef ->
  CRS_DEFINITIONS !! target = Some tdef ->
  from_crs (Some sdef) (Some tdef) = Return t ->
  batch (Some (Return csv_input)) (Some source) (Some target)
  = handle ('(results, errs) ← loop t source target 1 csv_input [] [];
            jsonify_batch {| b_success := true;
                             b_total_processed := Z.of_nat (length results);
                             b_errors := errs;
                             b_data := results |}).
Proof.
  intros Hs Ht Hf. unfold transform_batch. simpl from_option.
  rewrite (registered_truthy _ _ Hs), (registered_truthy _ _ Ht). simpl.
  rewrite Hs, Ht. unfold mbind, exc_bind. now rewrite Hf.
Qed.

(** C3, as the code has it: a batch call with registered codes whose row
    source has no row returns a successful BatchResult with no success and
    no error; no NO_ROWS error is raised. *)
Theorem empty_batch_succeeds source target sdef tdef t :
  CRS_DEFINITIONS !! source = Some sdef ->
  CRS_DEFINITIONS !! target = Some tdef ->
  from_crs (Some sdef) (Some tdef) = Return t ->
  batch (Some (Return Rend)) (Some source) (Some target)
  = Ok {| b_success := true; b_total_processed := 0; b_errors := []; b_data := [] |}.
Proof.
  intros Hs Ht Hf. now rewrite (batch_run Rend _ _ _ _ _ Hs Ht Hf).
Qed.

(** C4: whatever rows the reader yields, the loop puts every row in exactly
    one of its two lists: the success list is the results of the rows that
    succeed, in the order of the input, and the error list is the entries of
    the rows that fail, each with its 1-based index, in the order of the
    input (so rows = successes + errors, and a row that fails does not keep
    the later rows from being processed).  With registered codes the handler
    answers these two lists, unless a row of the success list has cells beyond
    the header, which jsonify cannot write. *)
Theorem batch_rows_accounted rows source target t :
  exists results errs,
    loop t source target 1 (yields rows Rend) [] [] = Return (results, errs) /\
    results = omap (fun row => match row_result t source target row with
                               | Return r => Some r
                               | Raise _ => None
                               end) rows /\
    errs = omap id (imap (bad_row t source target) rows) /\
    (length results + length errs = length rows)%nat /\
    (forall i row,
       rows !! i = Some row ->
       (exists r, row_result t source target row = Return r /\
                  r ∈ results /\
                  forall e, e ∈ errs -> e_row e <> Z.of_nat i + 1) \/
       (exists ex, row_result t source target row = Raise ex /\
                   {| e_row := Z.of_nat i + 1; e_error := exn_str ex |} ∈ errs)) /\
    (forall e,
       e ∈ errs ->
       exists i row ex,
         rows !! i = Some row /\ e_row e = Z.of_nat i + 1 /\
         row_result t source target row = Raise ex /\ e_error e = exn_str ex) /\
    (exists kept,
       kept `sublist_of` rows /\
       Forall2 (fun row r => row_result t source target row = Return r) kept results) /\
    (forall sdef tdef,
       CRS_DEFINITIONS !! source = Some sdef ->
       CRS_DEFINITIONS !! target = Some tdef ->
       from_crs (Some sdef) (Some tdef) = Return t ->
       existsb has_surplus results = false ->
       batch (Some (Return (yields rows Rend))) (Some source) (Some target)
       = Ok {| b_success := true;
               b_total_processed := Z.of_nat (length results);
               b_errors := errs;
               b_data := results |}).
Proof.
  exists (ok_rows t source target rows), (bad_rows t source target 1 rows).
  split; [apply batch_loop_end|]. split; [reflexivity|].
  split; [apply failures_by_position|].
  split; [apply successes_failures_length|].
  split; [|split; [|split]].
  - intros i row Hi.
    destruct (process_row _ _ _ t source target row) as [r|ex] eqn:Hrow.
    + left. exists r. split; [reflexivity|]. split; [eapply successes_elem; eauto|].
      intros e He Heq. apply failures_elem in He as (j & row' & ex & Hj & Hr & ->).
      simpl in Heq. assert (j = i) as -> by lia. congruence.
    + right. exists ex. split; [reflexivity|].
      apply failures_elem. exists i, row, ex. repeat split; auto. f_equal. lia.
  - intros e He. apply failures_elem in He as (j & row' & ex & Hj & Hr & ->).
    exists j, row', ex. simpl. repeat split; auto. lia.
  - apply successes_in_order.
  - intros sdef tdef Hs Ht Hf Hsur.
    rewrite (batch_run _ _ _ _ _ _ Hs Ht Hf), batch_loop_end.
    unfold mbind, exc_bind, jsonify_batch. cbn [b_data]. now rewrite Hsur.
Qed.

(** *** Column resolution *)

Lemma first_of_blank row k keys :
  keys <> [] -> blank row k -> first_of row (k :: keys) = first_of row keys.
Proof.
  intros Hne Hb. destruct keys as [|k' keys]; [contradiction|].
  cbn [first_of]. destruct Hb as [->|[->| ->]]; reflexivity.
Qed.

Lemma first_of_all_blank row keys :
  Forall (blank row) keys -> first_of row keys = VNone \/ first_of row keys = VStr "".
Proof.
  induction 1 as [|k keys Hk Hrest IH]; [now left|].
  destruct keys as [|k' keys].
  - cbn [first_of]. destruct Hk as [->|[->| ->]]; auto.
  - rewrite first_of_blank; [exact IH|discriminate|exact Hk].
Qed.

Lemma py_float_blank v :
  v = VNone \/ v = VStr "" -> exists e, py_float unicode v = Raise e.
Proof. intros [->| ->]; eexists; reflexivity. Qed.

Lemma process_row_names t source target row :
  row_result t source target row =
    '(x, y) ← (x ← py_float unicode (first_of row (x_names source));
               y ← py_float unicode (first_of row (y_names source));
               Return (x, y));
    '(tx, ty) ← transform t (VFloat x) (VFloat y);
    rx ← py_round tx 6;
    ry ← py_round ty 6;
    Return (<[Some "target_crs" := VStr target]>
              (<[Some "transformed_y" := ry]> (<[Some "transformed_x" := rx]> row))).
Proof.
  unfold process_row, x_names, y_names.
  destruct (source =? "WGS84")%string; reflexivity.
Qed.

(** C10: in the column resolution a cell that is present but empty is
    passed over like an absent one, and the next name in the order is
    tried (an empty 'lon' defers to 'longitude'); a row in which every name
    of one axis is absent or empty raises in [process_row], so the loop
    records it in the error list with its index and adds nothing to the
    success list. *)
Theorem blank_cells_fall_through :
  (forall row k keys,
     keys <> [] -> blank row k -> first_of row (k :: keys) = first_of row keys) /\
  first_of {[ Some "lon" := VStr ""; Some "longitude" := VStr "1.5" ]}
    ["lon"; "longitude"; "x"; "X"] = VStr "1.5" /\
  (forall t source target row,
     Forall (blank row) (x_names source) \/ Forall (blank row) (y_names source) ->
     exists ex,
       row_result t source target row = Raise ex /\
       forall idx rest results errs,
         loop t source target idx (Rrow row rest) results errs
         = loop t source target (idx + 1) rest results
             (errs ++ [{| e_row := idx; e_error := exn_str ex |}])).
Proof.
  split; [exact first_of_blank|]. split; [reflexivity|].
  intros t source target row Hblank.
  assert (exists ex, row_result t source target row = Raise ex) as [ex Hex].
  { rewrite process_row_names. unfold mbind, exc_bind.
    destruct Hblank as [Hx|Hy].
    - destruct (py_float_blank _ (first_of_all_blank _ _ Hx)) as [e ->]. eauto.
    - destruct (py_float_blank _ (first_of_all_blank _ _ Hy)) as [e ->].
      destruct (py_float unicode (first_of row (x_names source))); eauto. }
  exists ex. split; [exact Hex|]. intros idx rest results errs.
  cbn [batch_loop]. now rewrite Hex.
Qed.

End Batch.

(** ** Zone selection on numbers *)

Lemma num_compare_int_flip z n :
  num_compare (NInt z) n = option_map CompOpp (num_compare n (NInt z)).
Proof.
  destruct n as [y|f]; simpl; [|reflexivity].
  now rewrite Z.compare_antisym.
Qed.

(** [get_utm_zone] on a number: zone 31N exactly on [0, 6], zone 30N
    everywhere else (on [-6, 0) and as the default). *)
Lemma get_utm_zone_selects n :
  get_utm_zone (of_num n)
  = Return (if between 0 n 6 then "UTM_31N" else "UTM_30N").
Proof.
  unfold get_utm_zone, py_le, py_lt. simpl as_num. rewrite as_num_of_num.
  rewrite py_between_num. unfold mbind, exc_bind, between, le_result.
  rewrite (num_compare_int_flip 0 n).
  destruct (num_compare (NInt (-6)) n) as [[]|];
    destruct (num_compare n (NInt 0)) as [[]|]; simpl;
    try reflexivity;
    destruct (num_compare n (NInt 6)) as [[]|]; reflexivity.
Qed.

(** * The theorems at concrete requests *)

Lemma validate_valid_iff_no_errors_witness :
  let data := validate_request (VStr "UTM_30N") (VInt 900000) (VFloat F64.nan) in
  py_get data "crs" = Return (VStr "UTM_30N") /\
  py_get data "x" = Return (of_num (NInt 900000)) /\
  py_get data "y" = Return (of_num (NFloat F64.nan)) /\
  exists v,
    validate_coordinates data = Ok v /\
    (valid v = true <-> errors v = []) /\
    (VStr "UTM_30N" <> VStr "WGS84" -> errors v = [] /\ valid v = true).
Proof.
  split; [reflexivity|]. split; [reflexivity|]. split; [reflexivity|].
  apply (validate_valid_iff_no_errors _ (VStr "UTM_30N") (NInt 900000) (NFloat F64.nan));
    reflexivity.
Defined.

Lemma validate_wgs84_bounds_witness :
  let data := validate_request (VStr "WGS84") (VFloat Examples.lon) (VInt 91) in
  py_get data "crs" = Return (VStr "WGS84") /\
  py_get data "x" = Return (of_num (NFloat Examples.lon)) /\
  py_get data "y" = Return (of_num (NInt 91)) /\
  exists v,
    validate_coordinates data = Ok v /\
    (In "Longitude must be between -180 and 180 degrees" (errors v)
     <-> ~ in_interval (-180) 180 (NFloat Examples.lon)) /\
    (In "Latitude must be between -90 and 90 degrees" (errors v)
     <-> ~ in_interval (-90) 90 (NInt 91)) /\
    (In "Longitude outside Ghana bounds (approximately -4° to 2°)" (warnings v)
     <-> ~ in_interval (-4) 2 (NFloat Examples.lon)) /\
    (In "Latitude outside Ghana bounds (approximately 4° to 12°)" (warnings v)
     <-> ~ in_interval 4 12 (NInt 91)).
Proof.
  split; [reflexivity|]. split; [reflexivity|]. split; [reflexivity|].
  apply (proj1 validate_wgs84_bounds _ (NFloat Examples.lon) (NInt 91)); reflexivity.
Defined.

(** C2 fails as stated: from WGS84 to Web Mercator the latitude 91 cannot
    be projected, pyproj answers infinities, and the handler returns them in
    a successful result. *)
Lemma nonfinite_result_counterexample :
  let x := VInt 0 in
  let y := VInt 91 in
  let data := transform_request "WGS84" "WEB_MERCATOR" (lonlat x y) in
  Standin.beyond_poles tt x y = Return (VFloat F64.inf, VFloat F64.inf) /\
  F64.is_finite F64.inf = false /\
  exists r,
    Examples.handler Standin.beyond_poles data = Ok r /\
    r_target r
    = {| p_crs := "WEB_MERCATOR"; p_x := VFloat F64.inf; p_y := VFloat F64.inf |} /\
    is_error (Examples.handler Standin.beyond_poles data) = false.
Proof.
  split; [reflexivity|]. split; [reflexivity|].
  eexists. split; [vm_compute; reflexivity|]. split; reflexivity.
Qed.

Lemma nonfinite_result_returned_witness :
  let x := VInt 0 in
  let y := VInt 91 in
  let data := transform_request "WGS84" "WEB_MERCATOR" (lonlat x y) in
  Standin.beyond_poles tt x y = Return (VFloat F64.inf, VFloat F64.inf) /\
  F64.is_finite F64.inf = false /\
  exists r,
    Examples.handler Standin.beyond_poles data = Ok r /\
    r_target r = {| p_crs := "WEB_MERCATOR";
                    p_x := VFloat (F64.round 6 F64.inf);
                    p_y := VFloat (F64.round 6 F64.inf) |} /\
    (F64.is_finite F64.inf = false -> p_x (r_target r) = VFloat F64.inf) /\
    (F64.is_finite F64.inf = false -> p_y (r_target r) = VFloat F64.inf).
Proof.
  split; [reflexivity|]. split; [reflexivity|].
  apply (nonfinite_result_returned
           Standin.c_fun Standin.c_fun Standin.c_fun Standin.c_fun Standin.c_pow
           unit Standin.from_crs Standin.beyond_poles
           (transform_request "WGS84" "WEB_MERCATOR" (lonlat (VInt 0) (VInt 91)))
           "WGS84" "WEB_MERCATOR" "EPSG:4326" "EPSG:3857"
           (lonlat (VInt 0) (VInt 91)) tt
           (VInt 0) (VInt 91) F64.inf F64.inf None);
    try reflexivity.
  left. reflexivity.
Defined.

(** C3 fails as stated: an empty row source gives a successful result. *)
Lemma empty_batch_counterexample :
  Examples.batch (Some (Return Rend)) (Some "WGS84") (Some "UTM_30N")
  = Ok {| b_success := true; b_total_processed := 0; b_errors := []; b_data := [] |} /\
  is_error (Examples.batch (Some (Return Rend)) (Some "WGS84") (Some "UTM_30N")) = false.
Proof. split; reflexivity. Qed.

Lemma empty_batch_succeeds_witness :
  CRS_DEFINITIONS !! "WGS84" = Some "EPSG:4326" /\
  CRS_DEFINITIONS !! "UTM_30N" = Some "EPSG:32630" /\
  Standin.from_crs (Some "EPSG:4326") (Some "EPSG:32630") = Return tt /\
  Examples.batch (Some (Return Rend)) (Some "WGS84") (Some "UTM_30N")
  = Ok {| b_success := true; b_total_processed := 0; b_errors := []; b_data := [] |}.
Proof.
  split; [reflexivity|]. split; [reflexivity|]. split; [reflexivity|].
  apply (empty_batch_succeeds unit Standin.from_crs Standin.noop Standin.unicode
           "WGS84" "UTM_30N" "EPSG:4326" "EPSG:32630" tt); reflexivity.
Defined.

Lemma batch_rows_accounted_witness :
  CRS_DEFINITIONS !! "WGS84" = Some "EPSG:4326" /\
  CRS_DEFINITIONS !! "UTM_30N" = Some "EPSG:32630" /\
  Standin.from_crs (Some "EPSG:4326") (Some "EPSG:32630") = Return tt /\
  exists results errs,
    Examples.loop "WGS84" "UTM_30N" 1 (yields Examples.three_rows Rend) [] []
    = Return (results, errs) /\
    length results = 2%nat /\
    errs = [{| e_row := 2; e_error := "could not convert string to float: 'abc'" |}] /\
    existsb has_surplus results = false /\
    Examples.batch (Some (Return (yields Examples.three_rows Rend)))
      (Some "WGS84") (Some "UTM_30N")
    = Ok {| b_success := true;
            b_total_processed := Z.of_nat (length results);
            b_errors := errs;
            b_data := results |}.
Proof.
  split; [reflexivity|]. split; [reflexivity|]. split; [reflexivity|].
  destruct (batch_rows_accounted unit Standin.from_crs Standin.noop Standin.unicode
              Examples.three_rows "WGS84" "UTM_30N" tt)
    as (results & errs & Hloop & Hres & Herrs & _ & _ & _ & _ & Hbatch).
  exists results, errs. split; [exact Hloop|].
  assert (existsb has_surplus results = false) as Hsur
    by (rewrite Hres; vm_compute; reflexivity).
  split; [rewrite Hres; vm_compute; reflexivity|].
  split; [rewrite Herrs; vm_compute; reflexivity|].
  split; [exact Hsur|].
  apply (Hbatch "EPSG:4326" "EPSG:32630"); [reflexivity|reflexivity|reflexivity|exact Hsur].
Defined.

(** C5 fails as stated: from WGS84 to WGS84 the longitude -1.23456789 comes
    back as -1.234568. *)
Lemma same_crs_counterexample :
  let data := transform_request "WGS84" "WGS84"
                (lonlat (VFloat Examples.lon) (VFloat Examples.lat)) in
  Standin.noop tt (VFloat Examples.lon) (VFloat Examples.lat)
  = Return (VFloat Examples.lon, VFloat Examples.lat) /\
  exists r,
    Examples.handler Standin.noop data = Ok r /\
    p_x (r_source r) = VFloat Examples.lon /\
    p_x (r_target r) = VFloat Examples.lon6 /\
    p_x (r_target r) <> p_x (r_source r) /\
    F64.compare Examples.lon6 Examples.lon = Some Lt.
Proof.
  split; [reflexivity|].
  eexists. split; [vm_compute; reflexivity|]. simpl.
  repeat split; try reflexivity. vm_compute. congruence.
Qed.

Lemma same_crs_rounds_witness :
  let x := VFloat Examples.lon in
  let y := VFloat Examples.lat in
  let coords := lonlat x y in
  let data := transform_request "WGS84" "WGS84" coords in
  CRS_DEFINITIONS !! "WGS84" = Some "EPSG:4326" /\
  extract_coordinates "WGS84" coords = Return (x, y) /\
  Standin.noop tt x y = Return (x, y) /\
  exists rx ry,
    py_round x 6 = Return rx /\
    py_round y 6 = Return ry /\
    (forall f, x = VFloat f -> rx = VFloat (F64.round 6 f)) /\
    (forall z, x = VInt z -> rx = VInt z) /\
    (forall f, y = VFloat f -> ry = VFloat (F64.round 6 f)) /\
    (forall z, y = VInt z -> ry = VInt z) /\
    Examples.handler Standin.noop data
    = Ok {| r_source := {| p_crs := "WGS84"; p_x := x; p_y := y |};
            r_target := {| p_crs := "WGS84"; p_x := rx; p_y := ry |};
            r_metadata := None;
            r_accuracy := generic_accuracy |}.
Proof.
  split; [reflexivity|]. split; [reflexivity|]. split; [reflexivity|].
  apply (same_crs_rounds
           Standin.c_fun Standin.c_fun Standin.c_fun Standin.c_fun Standin.c_pow
           unit Standin.from_crs Standin.noop
           (transform_request "WGS84" "WGS84"
              (lonlat (VFloat Examples.lon) (VFloat Examples.lat)))
           "WGS84" "EPSG:4326" (lonlat (VFloat Examples.lon) (VFloat Examples.lat)) tt
           (VFloat Examples.lon) (VFloat Examples.lat));
    try reflexivity; eexists; reflexivity.
Defined.

Lemma metadata_iff_wgs84_to_utm_witness :
  let data := transform_request "WGS84" "UTM_31N"
                (lonlat (VFloat Examples.lon) (VFloat Examples.lat)) in
  exists r,
    Examples.handler Standin.noop data = Ok r /\
    p_crs (r_source r) = "WGS84" /\ p_crs (r_target r) = "UTM_31N" /\
    is_Some (r_metadata r) /\
    (is_Some (r_metadata r) <->
     (p_crs (r_target r) = "UTM_30N" \/ p_crs (r_target r) = "UTM_31N") /\
     p_crs (r_source r) = "WGS84") /\
    (forall md, r_metadata r = Some md ->
       exists coords lon lat cm conv k,
         py_get data "coordinates" = Return coords /\
         py_get coords "lon" = Return lon /\
         py_get coords "lat" = Return lat /\
         (p_crs (r_target r) = "UTM_30N" /\ cm = -3 \/
          p_crs (r_target r) = "UTM_31N" /\ cm = 3) /\
         calculate_convergence Standin.c_fun Standin.c_fun Standin.c_fun lat lon cm
         = Return conv /\
         calculate_scale_factor Standin.c_fun Standin.c_fun Standin.c_fun Standin.c_pow
           lat lon cm = Return k /\
         md = {| m_zone := p_crs (r_target r);
                 m_convergence := F64.round 6 conv;
                 m_scale_factor := F64.round 8 k |}).
Proof.
  eexists. split; [vm_compute; reflexivity|].
  split; [reflexivity|]. split; [reflexivity|]. split; [eexists; reflexivity|].
  apply (metadata_iff_wgs84_to_utm
           Standin.c_fun Standin.c_fun Standin.c_fun Standin.c_fun Standin.c_pow
           unit Standin.from_crs Standin.noop
           (transform_request "WGS84" "UTM_31N"
              (lonlat (VFloat Examples.lon) (VFloat Examples.lat)))).
  vm_compute. reflexivity.
Defined.

Lemma accuracy_block_lookup_witness :
  let coords := xy (VInt 500000) (VInt 600000) in
  let data := transform_request "UTM_30N" "WEB_MERCATOR" coords in
  py_get data "source_crs" = Return (VStr "UTM_30N") /\
  py_get data "target_crs" = Return (VStr "WEB_MERCATOR") /\
  py_get data "coordinates" = Return coords /\
  Standin.noop tt (VInt 500000) (VInt 600000)
  = Return (VFloat (F64.of_Z 500000), VFloat (F64.of_Z 600000)) /\
  TRANSFORMATION_ACCURACY !! "UTM_30N_to_WEB_MERCATOR" = None /\
  exists r, Examples.handler Standin.noop data = Ok r /\ r_accuracy r = generic_accuracy.
Proof.
  repeat (split; [reflexivity|]).
  apply (proj1 (proj2 (accuracy_block_lookup
           Standin.c_fun Standin.c_fun Standin.c_fun Standin.c_fun Standin.c_pow
           unit Standin.from_crs Standin.noop))
           (transform_request "UTM_30N" "WEB_MERCATOR" (xy (VInt 500000) (VInt 600000)))
           (xy (VInt 500000) (VInt 600000)) tt (VInt 500000) (VInt 600000)
           (VFloat (F64.of_Z 500000)) (VFloat (F64.of_Z 600000)));
    try reflexivity; try discriminate; eexists; reflexivity.
Defined.

Lemma blank_cells_fall_through_witness :
  blank Examples.empty_lon "lon" /\
  first_of Examples.empty_lon ["lon"; "longitude"; "x"; "X"]
  = first_of Examples.empty_lon ["longitude"; "x"; "X"] /\
  Forall (blank Examples.empty_lon) (x_names "WGS84") /\
  exists ex,
    Examples.row_result "WGS84" "UTM_30N" Examples.empty_lon = Raise ex /\
    forall idx rest results errs,
      Examples.loop "WGS84" "UTM_30N" idx (Rrow Examples.empty_lon rest) results errs
      = Examples.loop "WGS84" "UTM_30N" (idx + 1) rest results
          (errs ++ [{| e_row := idx; e_error := exn_str ex |}]).
Proof.
  assert (blank Examples.empty_lon "lon") as Hlon by (right; right; reflexivity).
  assert (Forall (blank Examples.empty_lon) (x_names "WGS84")) as Hx.
  { repeat constructor; try assumption; left; reflexivity. }
  split; [exact Hlon|]. split; [|split; [exact Hx|]].
  - apply (proj1 (blank_cells_fall_through unit Standin.noop Standin.unicode));
      [discriminate|exact Hlon].
  - apply (proj2 (proj2 (blank_cells_fall_through unit Standin.noop Standin.unicode))).
    left. exact Hx.
Defined.

(** * Further properties of the code *)

(** ** Zone selection *)

(** X1: on every int or float, [get_utm_zone] answers 'UTM_31N' exactly on
    the closed interval [0, 6] and 'UTM_30N' everywhere else (NaN and the
    infinities included); the answer is always a registered code. *)
Theorem get_utm_zone_by_interval (n : num) :
  exists zone,
    get_utm_zone (of_num n) = Return zone /\
    (zone = "UTM_31N" <-> in_interval 0 6 n) /\
    (zone = "UTM_30N" <-> ~ in_interval 0 6 n) /\
    is_Some (CRS_DEFINITIONS !! zone).
Proof.
  exists (if between 0 n 6 then "UTM_31N" else "UTM_30N").
  split; [apply get_utm_zone_selects|].
  rewrite <- between_false_iff, <- between_in_interval.
  destruct (between 0 n 6); repeat split; try congruence; try discriminate;
    eexists; reflexivity.
Qed.

(** X2: on an object that is not a number ([None] for a missing longitude, a
    string, a list, a dict) [get_utm_zone] raises a TypeError. *)
Theorem get_utm_zone_rejects_non_numbers (v : pyval) :
  as_num v = None ->
  exists e, get_utm_zone v = Raise e /\ exn_class e = "TypeError".
Proof.
  intros H. unfold get_utm_zone, py_le. simpl as_num. rewrite H.
  eexists. split; reflexivity.
Qed.

Lemma get_utm_zone_rejects_non_numbers_witness :
  as_num VNone = None /\
  exists e, get_utm_zone VNone = Raise e /\ exn_class e = "TypeError".
Proof.
  split; [reflexivity|]. apply (get_utm_zone_rejects_non_numbers VNone). reflexivity.
Defined.

(** ** Validation of projected and unknown systems *)

Lemma py_between_as_num lo v n hi :
  as_num v = Some n -> py_between lo v hi = Return (between lo n hi).
Proof.
  intros H. unfold py_between, py_le, between. simpl as_num. rewrite H.
  unfold le_result. destruct (num_compare (NInt lo) n) as [[]|]; reflexivity.
Qed.

Lemma py_between_not_num lo v hi :
  as_num v = None -> exists e, py_between lo v hi = Raise e.
Proof.
  intros H. unfold py_between, py_le. simpl as_num. rewrite H. eexists. reflexivity.
Qed.

Lemma validate_two_warnings lo1 hi1 lo2 hi2 m1 m2 (x y : num) :
  m1 <> m2 ->
  exists v,
    (w ← unless_between lo1 (of_num x) hi1 (add_warning m1)
           {| valid := true; warnings := []; errors := [] |};
     unless_between lo2 (of_num y) hi2 (add_warning m2) w) = Return v /\
    valid v = true /\ errors v = [] /\
    (In m1 (warnings v) <-> ~ in_interval lo1 hi1 x) /\
    (In m2 (warnings v) <-> ~ in_interval lo2 hi2 y).
Proof.
  intros Hne.
  pose proof (between_false_iff lo1 x hi1) as B1.
  pose proof (between_false_iff lo2 y hi2) as B2.
  rewrite unless_between_num. unfold mbind, exc_bind. rewrite unless_between_num.
  destruct (between lo1 x hi1), (between lo2 y hi2); eexists;
    (split; [reflexivity|]); simpl; rewrite <- B1, <- B2; repeat split;
    try congruence; try tauto; intros H;
    repeat (destruct H as [H|H]; try congruence; try contradiction); auto.
Qed.

(** X3: for 'UTM_30N' and 'UTM_31N' and a numeric pair the report is always
    valid with no hard error; the easting warning is recorded exactly when x
    is outside [160000, 840000] and the northing warning exactly when y is
    outside [0, 10000000]. *)
Theorem validate_utm_bounds data crs (x y : num) :
  crs = "UTM_30N" \/ crs = "UTM_31N" ->
  py_get data "crs" = Return (VStr crs) ->
  py_get data "x" = Return (of_num x) ->
  py_get data "y" = Return (of_num y) ->
  exists v,
    validate_coordinates data = Ok v /\
    valid v = true /\ errors v = [] /\
    (In "Easting outside typical UTM zone range" (warnings v)
     <-> ~ in_interval 160000 840000 x) /\
    (In "Northing outside typical Northern hemisphere range" (warnings v)
     <-> ~ in_interval 0 10000000 y).
Proof.
  intros Hcrs Hc Hx Hy. unfold validate_coordinates. rewrite Hc, Hx, Hy.
  destruct (validate_two_warnings 160000 840000 0 10000000
              "Easting outside typical UTM zone range"
              "Northing outside typical Northern hemisphere range" x y
              ltac:(congruence)) as (v & Hv & Hrest).
  exists v. split; [|exact Hrest].
  destruct Hcrs as [-> | ->]; unfold mbind at 1 2 3, exc_bind at 1 2 3;
    cbv beta iota; simpl py_eq_str; cbv iota; simpl orb; cbv iota;
    unfold mbind at 1, exc_bind at 1; rewrite Hv; reflexivity.
Qed.

Lemma validate_utm_bounds_witness :
  let data := validate_request (VStr "UTM_31N") (VInt 150000) (VFloat Examples.lat) in
  ("UTM_31N" = "UTM_30N" \/ "UTM_31N" = "UTM_31N") /\
  exists v,
    validate_coordinates data = Ok v /\
    valid v = true /\ errors v = [] /\
    (In "Easting outside typical UTM zone range" (warnings v)
     <-> ~ in_interval 160000 840000 (NInt 150000)) /\
    (In "Northing outside typical Northern hemisphere range" (warnings v)
     <-> ~ in_interval 0 10000000 (NFloat Examples.lat)).
Proof.
  split; [right; reflexivity|].
  apply (validate_utm_bounds _ "UTM_31N" (NInt 150000) (NFloat Examples.lat));
    [right; reflexivity|reflexivity|reflexivity|reflexivity].
Defined.

(** X4: for 'GHANA_GRID' and a numeric pair the report is always valid with
    no hard error; the easting warning is recorded exactly when x is outside
    [0, 500000] and the northing warning exactly when y is outside
    [0, 1000000]. *)
Theorem validate_ghana_grid_bounds data (x y : num) :
  py_get data "crs" = Return (VStr "GHANA_GRID") ->
  py_get data "x" = Return (of_num x) ->
  py_get data "y" = Return (of_num y) ->
  exists v,
    validate_coordinates data = Ok v /\
    valid v = true /\ errors v = [] /\
    (In "Easting outside typical Ghana Grid range" (warnings v)
     <-> ~ in_interval 0 500000 x) /\
    (In "Northing outside typical Ghana Grid range" (warnings v)
     <-> ~ in_interval 0 1000000 y).
Proof.
  intros Hc Hx Hy. unfold validate_coordinates. rewrite Hc, Hx, Hy.
  destruct (validate_two_warnings 0 500000 0 1000000
              "Easting outside typical Ghana Grid range"
              "Northing outside typical Ghana Grid range" x y
              ltac:(congruence)) as (v & Hv & Hrest).
  exists v. split; [|exact Hrest].
  unfold mbind at 1 2 3, exc_bind at 1 2 3;
    cbv beta iota; simpl py_eq_str; cbv iota; simpl orb; cbv iota;
    unfold mbind at 1, exc_bind at 1; rewrite Hv; reflexivity.
Qed.

Lemma validate_ghana_grid_bounds_witness :
  let data := validate_request (VStr "GHANA_GRID") (VInt 500001) (VInt 0) in
  exists v,
    validate_coordinates data = Ok v /\
    valid v = true /\ errors v = [] /\
    (In "Easting outside typical Ghana Grid range" (warnings v)
     <-> ~ in_interval 0 500000 (NInt 500001)) /\
    (In "Northing outside typical Ghana Grid range" (warnings v)
     <-> ~ in_interval 0 1000000 (NInt 0)).
Proof.
  apply (validate_ghana_grid_bounds _ (NInt 500001) (NInt 0)); reflexivity.
Defined.

(** X5: for a code that is none of 'WGS84', 'UTM_30N', 'UTM_31N' and
    'GHANA_GRID' (an unknown code, 'WEB_MERCATOR', a missing code) no check is
    made: whatever x and y are, even missing or not numbers, the report is
    valid with no warning and no error. *)
Theorem validate_unknown_crs (d : gmap string pyval) :
  let crs := default VNone (d !! "crs") in
  crs <> VStr "WGS84" -> crs <> VStr "UTM_30N" ->
  crs <> VStr "UTM_31N" -> crs <> VStr "GHANA_GRID" ->
  validate_coordinates (VDict d) = Ok {| valid := true; warnings := []; errors := [] |}.
Proof.
  intros crs H1 H2 H3 H4. unfold validate_coordinates. simpl py_get.
  unfold mbind, exc_bind. fold crs.
  now rewrite !py_eq_str_false by assumption.
Qed.

Lemma validate_unknown_crs_witness :
  validate_coordinates
    (VDict (list_to_map [("crs", VStr "WEB_MERCATOR"); ("x", VStr "east")]))
  = Ok {| valid := true; warnings := []; errors := [] |}.
Proof.
  apply (validate_unknown_crs
           (list_to_map [("crs", VStr "WEB_MERCATOR"); ("x", VStr "east")]));
    vm_compute; congruence.
Defined.

(** X6: for one of the four checked codes, a coordinate that is missing or
    not a number makes a comparison raise, and the handler answers 500
    instead of a report. *)
Theorem validate_non_numeric_is_500 data crs x y :
  crs = "WGS84" \/ crs = "UTM_30N" \/ crs = "UTM_31N" \/ crs = "GHANA_GRID" ->
  py_get data "crs" = Return (VStr crs) ->
  py_get data "x" = Return x ->
  py_get data "y" = Return y ->
  as_num x = None \/ as_num y = None ->
  exists msg, validate_coordinates data = Error 500 msg.
Proof.
  intros Hcrs Hc Hx Hy Hnum. unfold validate_coordinates. rewrite Hc, Hx, Hy.
  unfold mbind, exc_bind, unless_between, mbind, exc_bind.
  destruct (as_num x) as [nx|] eqn:Ex.
  - destruct Hnum as [|Ey]; [discriminate|].
    destruct Hcrs as [-> | [-> | [-> | ->]]]; simpl py_eq_str; cbv iota; simpl orb;
      cbv iota; rewrite !(py_between_as_num _ x nx) by assumption;
      match goal with
      | |- context [py_between ?lo y ?hi] =>
          destruct (py_between_not_num lo y hi Ey) as [e ->]
      end; eexists; reflexivity.
  - destruct Hcrs as [-> | [-> | [-> | ->]]]; simpl py_eq_str; cbv iota; simpl orb;
      cbv iota;
      match goal with
      | |- context [py_between ?lo x ?hi] =>
          destruct (py_between_not_num lo x hi Ex) as [e ->]
      end; eexists; reflexivity.
Qed.

Lemma validate_non_numeric_is_500_witness :
  let data := VDict (list_to_map [("crs", VStr "WGS84"); ("x", VInt 1)]) in
  py_get data "y" = Return VNone /\
  as_num VNone = None /\
  exists msg, validate_coordinates data = Error 500 msg.
Proof.
  split; [reflexivity|]. split; [reflexivity|].
  apply (validate_non_numeric_is_500 _ "WGS84" (VInt 1) VNone);
    [left; reflexivity|reflexivity|reflexivity|reflexivity|right; reflexivity].
Defined.

(** ** The descriptive tables *)

(** X7: the codes described by [get_crs_info] are exactly the registered
    codes, and wherever a description gives an EPSG code it is the definition
    the registry passes to pyproj for that code. *)
Theorem crs_info_matches_registry :
  exists info,
    get_crs_info = Ok info /\
    dom info = dom CRS_DEFINITIONS /\
    forall code entry epsg,
      info !! code = Some entry -> entry !! "epsg" = Some epsg ->
      CRS_DEFINITIONS !! code = Some epsg.
Proof.
  exists crs_info. split; [reflexivity|]. split; [vm_compute; reflexivity|].
  intros code entry epsg Hcode Hepsg.
  apply elem_of_list_to_map_2 in Hcode.
  repeat (apply elem_of_cons in Hcode as [Hcode|Hcode];
          [injection Hcode as -> ->; vm_compute in Hepsg;
           first [discriminate Hepsg | injection Hepsg as <-; reflexivity]|]).
  apply elem_of_nil in Hcode. contradiction.
Qed.

(** ** Convergence and scale factor on mirrored longitudes *)

Lemma binary_round_aux_opp s m e l :
  binary_round_aux F64.prec F64.emax (negb s) m e l
  = SFopp (binary_round_aux F64.prec F64.emax s m e l).
Proof.
  unfold binary_round_aux.
  destruct (shr_fexp F64.prec F64.emax m e l) as [mrs' e'].
  destruct (shr_fexp F64.prec F64.emax _ e' loc_Exact) as [mrs'' e''].
  destruct (shr_m mrs''); try reflexivity.
  destruct (e'' <=? F64.emax - F64.prec); reflexivity.
Qed.

Lemma mul_opp_l a b : F64.mul (SFopp a) b = SFopp (F64.mul a b).
Proof.
  destruct a as [sa|sa| |sa ma ea], b as [sb|sb| |sb mb eb]; simpl;
    try reflexivity; try (now destruct sa, sb).
  unfold F64.mul, SFmul.
  replace (xorb (negb sa) sb) with (negb (xorb sa sb)) by now destruct sa, sb.
  apply binary_round_aux_opp.
Qed.

Lemma math_1_odd f x :
  odd_function f ->
  math_1 f (SFopp x) = (r ← math_1 f x; Return (SFopp r)).
Proof.
  intros Hodd. unfold math_1. rewrite Hodd.
  destruct x as [s|s| |s m e], (f _) as [s'|s'| |s' m' e']; reflexivity.
Qed.

Lemma float_pow_opp c_pow x n : float_pow c_pow (SFopp x) n = float_pow c_pow x n.
Proof. destruct x; reflexivity. Qed.

Section KernelProperties.

Variables c_sin c_cos c_tan c_atan : float -> float.
Variable c_pow : float -> float -> float.

(** X8: grid convergence is odd in the offset from the central meridian.
    When [tan] and [atan] of the C library are odd functions, two longitudes
    whose offsets [lon - central_meridian] are opposite doubles give opposite
    convergences (east of the meridian against west of it), and the same
    exception when one is raised. *)
Theorem convergence_odd lat lon1 lon2 cm d1 d2 delta :
  odd_function c_tan -> odd_function c_atan ->
  py_sub lon1 (VInt cm) = Return d1 -> as_double d1 = Return delta ->
  py_sub lon2 (VInt cm) = Return d2 -> as_double d2 = Return (SFopp delta) ->
  calculate_convergence c_sin c_tan c_atan lat lon2 cm
  = (c ← calculate_convergence c_sin c_tan c_atan lat lon1 cm; Return (SFopp c)).
Proof.
  intros Htan Hatan H1 Hd1 H2 Hd2.
  unfold calculate_convergence, mbind, exc_bind.
  destruct (math_radians lat) as [lat_rad|]; [|reflexivity].
  rewrite H1, H2. unfold math_radians, mbind, exc_bind. rewrite Hd1, Hd2.
  rewrite mul_opp_l. unfold math_tan, math_atan, math_degrees.
  rewrite (math_1_odd c_tan _ Htan). unfold mbind, exc_bind.
  destruct (math_1 c_tan (F64.mul delta degToRad)) as [t|]; [|reflexivity].
  destruct (math_sin c_sin lat_rad) as [s|]; [|reflexivity].
  rewrite mul_opp_l, (math_1_odd c_atan _ Hatan). unfold mbind, exc_bind.
  destruct (math_1 c_atan (F64.mul t s)) as [c|]; [|reflexivity].
  cbn [as_double as_num]. now rewrite mul_opp_l.
Qed.

(** X9: the point scale factor is even in the offset from the central
    meridian: two longitudes whose offsets are opposite doubles give the same
    scale factor (or the same exception), whatever the C library computes. *)
Theorem scale_factor_even lat lon1 lon2 cm d1 d2 delta :
  py_sub lon1 (VInt cm) = Return d1 -> as_double d1 = Return delta ->
  py_sub lon2 (VInt cm) = Return d2 -> as_double d2 = Return (SFopp delta) ->
  calculate_scale_factor c_sin c_cos c_tan c_pow lat lon2 cm
  = calculate_scale_factor c_sin c_cos c_tan c_pow lat lon1 cm.
Proof.
  intros H1 Hd1 H2 Hd2. unfold calculate_scale_factor, mbind, exc_bind.
  destruct (math_radians lat) as [lat_rad|]; [|reflexivity].
  rewrite H1, H2. unfold math_radians, mbind, exc_bind. rewrite Hd1, Hd2.
  repeat match goal with
         | |- match ?m with Return _ => _ | Raise _ => _ end
              = match ?m with Return _ => _ | Raise _ => _ end =>
             destruct m; [|reflexivity]
         end.
  now rewrite !mul_opp_l, !float_pow_opp.
Qed.

End KernelProperties.

Lemma convergence_odd_witness :
  odd_function c_identity /\
  py_sub (VInt (-2)) (VInt (-3)) = Return (VInt 1) /\
  as_double (VInt 1) = Return (F64.of_Z 1) /\
  py_sub (VInt (-4)) (VInt (-3)) = Return (VInt (-1)) /\
  as_double (VInt (-1)) = Return (SFopp (F64.of_Z 1)) /\
  calculate_convergence c_identity c_identity c_identity (VInt 5) (VInt (-4)) (-3)
  = (c ← calculate_convergence c_identity c_identity c_identity (VInt 5) (VInt (-2)) (-3);
     Return (SFopp c)).
Proof.
  assert (odd_function c_identity) as Hodd by (intros x; reflexivity).
  split; [exact Hodd|]. repeat (split; [reflexivity|]).
  apply (convergence_odd c_identity c_identity c_identity
           (VInt 5) (VInt (-2)) (VInt (-4)) (-3) (VInt 1) (VInt (-1)) (F64.of_Z 1));
    try exact Hodd; reflexivity.
Defined.

Lemma scale_factor_even_witness :
  py_sub (VInt 4) (VInt 3) = Return (VInt 1) /\
  as_double (VInt 1) = Return (F64.of_Z 1) /\
  py_sub (VInt 2) (VInt 3) = Return (VInt (-1)) /\
  as_double (VInt (-1)) = Return (SFopp (F64.of_Z 1)) /\
  calculate_scale_factor Standin.c_fun Standin.c_fun Standin.c_fun Standin.c_pow
    (VInt 5) (VInt 2) 3
  = calculate_scale_factor Standin.c_fun Standin.c_fun Standin.c_fun Standin.c_pow
      (VInt 5) (VInt 4) 3.
Proof.
  repeat (split; [reflexivity|]).
  apply (scale_factor_even Standin.c_fun Standin.c_fun Standin.c_fun Standin.c_pow
           (VInt 5) (VInt 4) (VInt 2) 3 (VInt 1) (VInt (-1)) (F64.of_Z 1));
    reflexivity.
Defined.

(** ** More on the single-point handler *)

Lemma extract_coordinates_keys source coords x y :
  extract_coordinates source coords = Return (x, y) <->
  py_get coords (x_key source) = Return x /\ py_get coords (y_key source) = Return y.
Proof.
  unfold extract_coordinates, x_key, y_key, mbind, exc_bind.
  destruct (source =? "WGS84")%string;
    match goal with
    | |- context [py_get coords ?k] =>
        destruct (py_get coords k) as [x'|]; [|split; [discriminate|intros [[=] _]]]
    end;
    match goal with
    | |- context [match py_get coords ?k with _ => _ end] =>
        destruct (py_get coords k) as [y'|]; [|split; [discriminate|intros [_ [=]]]]
    end;
    (split; [intros [= -> ->]; auto|intros [[= ->] [= ->]]; reflexivity]).
Qed.

Section SinglePointMore.

Variables c_sin c_cos c_tan c_atan : float -> float.
Variable c_pow : float -> float -> float.
Variable Transformer : Type.
Variable from_crs : option string -> option string -> exc Transformer.
Variable transform : Transformer -> pyval -> pyval -> exc (pyval * pyval).

Local Abbreviation handler :=
  (transform_coordinates c_sin c_cos c_tan c_atan c_pow Transformer from_crs transform).

(** X10: the single-point handler answers an error only with status 400 and
    one of its three messages, or with status 500 (an exception); it has no
    other error answer. *)
Theorem transform_error_statuses data status msg :
  handler data = Error status msg ->
  (status = 400 /\ In msg transform_400) \/ status = 500.
Proof.
  unfold transform_coordinates, mbind, exc_bind, handle, transform_400.
  destruct (py_get data "source_crs") as [vs|]; [|intros [= <- _]; auto].
  destruct (py_get data "target_crs") as [vt|]; [|intros [= <- _]; auto].
  destruct (py_get data "coordinates") as [coords|]; [|intros [= <- _]; auto].
  destruct (negb _); [intros [= <- <-]; simpl; auto 10|].
  destruct (crs_lookup vs) as [[[source sdef]|]|] eqn:Hls; [| |intros [= <- _]; auto].
  2:{ destruct (crs_lookup vt) as [[|]|]; intros [= <- <-]; simpl; auto 10. }
  destruct (crs_lookup vt) as [[[target tdef]|]|] eqn:Hlt;
    [|intros [= <- <-]; simpl; auto 10|intros [= <- _]; auto].
  apply crs_lookup_Some in Hlt as [-> Htd].
  rewrite (select_target_registered _ _ _ _ Htd).
  destruct (from_crs _ _) as [t|]; [|intros [= <- _]; auto].
  destruct (extract_coordinates source coords) as [[x y]|]; [|intros [= <- _]; auto].
  destruct (is_None x || is_None y); [intros [= <- <-]; simpl; auto 10|].
  destruct (transform t x y) as [[tx ty]|]; [|intros [= <- _]; auto].
  destruct (build_result _ _ _ _ _ _ _ _ _ _ _); [discriminate|intros [= <- _]; auto].
Qed.

(** X11: when the three parameters are present and a code is a string that
    is not in the registry, the handler answers 400 'Invalid CRS specified'
    whatever the coordinates are, and pyproj is not consulted. *)
Theorem transform_unknown_crs data source target coords :
  py_get data "source_crs" = Return (VStr source) ->
  py_get data "target_crs" = Return (VStr target) ->
  py_get data "coordinates" = Return coords ->
  source <> "" -> target <> "" -> truthy coords = true ->
  CRS_DEFINITIONS !! source = None \/ CRS_DEFINITIONS !! target = None ->
  handler data = Error 400 "Invalid CRS specified".
Proof.
  intros Hs Ht Hc Hns Hnt Htc Hun.
  unfold transform_coordinates. rewrite Hs, Ht, Hc. unfold mbind, exc_bind.
  cbn [truthy]. rewrite Htc.
  apply String.eqb_neq in Hns, Hnt. rewrite Hns, Hnt. cbn [negb andb crs_lookup].
  destruct Hun as [-> | ->]; [reflexivity|].
  destruct (CRS_DEFINITIONS !! source); reflexivity.
Qed.

(** X12: the pair is read only under the names of the source system: 'lon'
    and 'lat' for 'WGS84', 'x' and 'y' for the others.  A request whose
    coordinates lack one of these two names (or give it as null) is answered
    400 'Invalid coordinate values', even when the pair is there under the
    other names. *)
Theorem transform_wrong_axis_names data source target sdef tdef (c : gmap string pyval) t :
  py_get data "source_crs" = Return (VStr source) ->
  py_get data "target_crs" = Return (VStr target) ->
  py_get data "coordinates" = Return (VDict c) ->
  CRS_DEFINITIONS !! source = Some sdef ->
  CRS_DEFINITIONS !! target = Some tdef ->
  from_crs (Some sdef) (Some tdef) = Return t ->
  c <> ∅ ->
  default VNone (c !! x_key source) = VNone \/ default VNone (c !! y_key source) = VNone ->
  handler data = Error 400 "Invalid coordinate values".
Proof.
  intros Hs Ht Hc Hsd Htd Hf Hne Hmiss.
  unfold transform_coordinates. rewrite Hs, Ht, Hc. unfold mbind, exc_bind.
  rewrite (registered_truthy _ _ Hsd), (registered_truthy _ _ Htd).
  cbn [truthy]. rewrite bool_decide_eq_false_2 by exact Hne. cbn [negb andb].
  rewrite (crs_lookup_registered _ _ Hsd), (crs_lookup_registered _ _ Htd).
  rewrite (select_target_registered _ _ _ _ Htd), Hf.
  rewrite (proj2 (extract_coordinates_keys source (VDict c) _ _) (conj eq_refl eq_refl)).
  destruct Hmiss as [-> | ->]; [reflexivity|]. now rewrite orb_true_r.
Qed.

(** X13: an exception of pyproj is reported as status 500 with its message:
    when building the transformer fails, and when transforming the pair
    fails. *)
Theorem transform_pyproj_error_reported data source target sdef tdef coords e :
  py_get data "source_crs" = Return (VStr source) ->
  py_get data "target_crs" = Return (VStr target) ->
  py_get data "coordinates" = Return coords ->
  CRS_DEFINITIONS !! source = Some sdef ->
  CRS_DEFINITIONS !! target = Some tdef ->
  truthy coords = true ->
  (from_crs (Some sdef) (Some tdef) = Raise e \/
   exists t x y,
     from_crs (Some sdef) (Some tdef) = Return t /\
     extract_coordinates source coords = Return (x, y) /\
     is_None x || is_None y = false /\
     transform t x y = Raise e) ->
  handler data = Error 500 (exn_str e).
Proof.
  intros Hs Ht Hc Hsd Htd Htc Hraise.
  unfold transform_coordinates. rewrite Hs, Ht, Hc. unfold mbind, exc_bind.
  rewrite (registered_truthy _ _ Hsd), (registered_truthy _ _ Htd), Htc.
  cbn [negb andb].
  rewrite (crs_lookup_registered _ _ Hsd), (crs_lookup_registered _ _ Htd).
  rewrite (select_target_registered _ _ _ _ Htd).
  destruct Hraise as [-> | (t & x & y & -> & -> & -> & ->)]; reflexivity.
Qed.

(** X14: a successful result is pyproj's answer rounded: its source block
    is the two registered codes' source and the pair of the request as sent
    (read under the names of the source system, not null, not rounded), its
    target code is the requested one, and its target pair is [round(., 6)]
    of the pair the transformer built for the two definitions returns on the
    pair of the request. *)
Theorem transform_is_pyproj_then_round data r :
  handler data = Ok r ->
  exists sdef tdef coords t tx ty,
    py_get data "source_crs" = Return (VStr (p_crs (r_source r))) /\
    py_get data "target_crs" = Return (VStr (p_crs (r_target r))) /\
    py_get data "coordinates" = Return coords /\
    CRS_DEFINITIONS !! p_crs (r_source r) = Some sdef /\
    CRS_DEFINITIONS !! p_crs (r_target r) = Some tdef /\
    py_get coords (x_key (p_crs (r_source r))) = Return (p_x (r_source r)) /\
    py_get coords (y_key (p_crs (r_source r))) = Return (p_y (r_source r)) /\
    p_x (r_source r) <> VNone /\ p_y (r_source r) <> VNone /\
    from_crs (Some sdef) (Some tdef) = Return t /\
    transform t (p_x (r_source r)) (p_y (r_source r)) = Return (tx, ty) /\
    py_round tx 6 = Return (p_x (r_target r)) /\
    py_round ty 6 = Return (p_y (r_target r)).
Proof.
  intros H.
  apply transform_ok_inv in H
    as (source & target & sdef & tdef & coords & t & x & y & tx & ty &
        Hs & Ht & Hc & Hsd & Htd & Hf & He & Hn & Htr & Hb).
  apply build_result_inv in Hb as (rx & ry & m & Hrx & Hry & _ & ->). simpl.
  apply extract_coordinates_keys in He as [Hx Hy].
  apply orb_false_elim in Hn as [Hnx Hny].
  exists sdef, tdef, coords, t, tx, ty.
  repeat split; try assumption; intros ->; discriminate.
Qed.

(** X15: only two records of the accuracy table can be returned.  A
    successful result carries the 'WGS84_to_GHANA_GRID' record from WGS84 to
    GHANA_GRID, the 'GHANA_GRID_to_WGS84' record the other way, and the generic
    descriptor for every other pair: the keys 'WGS84_to_UTM' and
    'UTM_to_GHANA_GRID' match no pair of registered codes, so a transform from
    WGS84 to a UTM zone is labelled '1-5 meters', not '< 1 meter'. *)
Theorem transform_accuracy_reachable data r :
  handler data = Ok r ->
  let source := p_crs (r_source r) in
  let target := p_crs (r_target r) in
  (source = "WGS84" /\ target = "GHANA_GRID" /\
   TRANSFORMATION_ACCURACY !! "WGS84_to_GHANA_GRID" = Some (r_accuracy r)) \/
  (source = "GHANA_GRID" /\ target = "WGS84" /\
   TRANSFORMATION_ACCURACY !! "GHANA_GRID_to_WGS84" = Some (r_accuracy r)) \/
  (~ (source = "WGS84" /\ target = "GHANA_GRID") /\
   ~ (source = "GHANA_GRID" /\ target = "WGS84") /\
   r_accuracy r = generic_accuracy /\ accuracy (r_accuracy r) = "1-5 meters").
Proof.
  intros H.
  apply transform_ok_inv in H
    as (source & target & sdef & tdef & coords & t & x & y & tx & ty &
        Hs & Ht & Hc & Hsd & Htd & Hf & He & Hn & Htr & Hb).
  apply build_result_inv in Hb as (rx & ry & m & _ & _ & _ & ->). simpl.
  destruct (registered_cases _ _ Hsd) as [-> | [-> | [-> | [-> | ->]]]];
    destruct (registered_cases _ _ Htd) as [-> | [-> | [-> | [-> | ->]]]];
    first [ left; repeat split; reflexivity
          | right; left; repeat split; reflexivity
          | right; right; repeat split; try reflexivity; intros [? ?]; congruence ].
Qed.

End SinglePointMore.

(** ** More on the batch handler *)

Section BatchMore.

Variable Transformer : Type.
Variable from_crs : option string -> option string -> exc Transformer.
Variable transform : Transformer -> pyval -> pyval -> exc (pyval * pyval).
Variable unicode : unicode_db.

Local Abbreviation batch := (transform_batch Transformer from_crs transform unicode).
Local Abbreviation loop := (batch_loop Transformer transform unicode).
Local Abbreviation row_result := (process_row Transformer transform unicode).
Local Abbreviation ok_rows := (successes unicode Transformer transform).
Local Abbreviation bad_rows := (failures unicode Transformer transform).

(** X16: the batch handler rejects a call before it reads any row: 400 'No
    file uploaded' without a file; 400 'Missing CRS parameters' when a code
    is absent or empty, whatever the file is; then the upload is decoded, and
    one that cannot be decoded is answered 500 even when the codes are not
    registered; for a decoded upload, 400 'Invalid CRS specified' when a code
    is not registered and 500 with pyproj's message when the transformer
    cannot be built, whatever the reader would yield. *)
Theorem batch_rejects_bad_parameters :
  (forall source target, batch None source target = Error 400 "No file uploaded") /\
  (forall file source target,
     source = None \/ source = Some "" \/ target = None \/ target = Some "" ->
     batch (Some file) source target = Error 400 "Missing CRS parameters") /\
  (forall e source target,
     source <> "" -> target <> "" ->
     batch (Some (Raise e)) (Some source) (Some target) = Error 500 (exn_str e)) /\
  (forall csv_input source target,
     source <> "" -> target <> "" ->
     CRS_DEFINITIONS !! source = None \/ CRS_DEFINITIONS !! target = None ->
     batch (Some (Return csv_input)) (Some source) (Some target)
     = Error 400 "Invalid CRS specified") /\
  (forall csv_input source target sdef tdef e,
     CRS_DEFINITIONS !! source = Some sdef ->
     CRS_DEFINITIONS !! target = Some tdef ->
     from_crs (Some sdef) (Some tdef) = Raise e ->
     batch (Some (Return csv_input)) (Some source) (Some target)
     = Error 500 (exn_str e)).
Proof.
  split; [reflexivity|]. split; [|split; [|split]].
  - intros file source target H. unfold transform_batch.
    destruct H as [-> | [-> | [-> | ->]]]; try reflexivity;
      destruct source as [s|]; try reflexivity; simpl;
      destruct (s =? "")%string; reflexivity.
  - intros e source target Hs Ht. unfold transform_batch. simpl from_option.
    cbn [truthy]. apply String.eqb_neq in Hs, Ht. rewrite Hs, Ht. reflexivity.
  - intros csv_input source target Hs Ht H. unfold transform_batch. simpl from_option.
    cbn [truthy]. apply String.eqb_neq in Hs, Ht. rewrite Hs, Ht. simpl.
    destruct H as [-> | ->]; [reflexivity|].
    destruct (CRS_DEFINITIONS !! source); reflexivity.
  - intros csv_input source target sdef tdef e Hs Ht Hf. unfold transform_batch.
    simpl from_option.
    rewrite (registered_truthy _ _ Hs), (registered_truthy _ _ Ht). simpl.
    rewrite Hs, Ht. unfold mbind, exc_bind. now rewrite Hf.
Qed.

(** Every successful answer of the batch handler went through all the
    steps. *)
Lemma batch_ok_inv csv_input source target res :
  batch (Some (Return csv_input)) source target = Ok res ->
  exists src tgt sdef tdef t,
    source = Some src /\ target = Some tgt /\
    CRS_DEFINITIONS !! src = Some sdef /\
    CRS_DEFINITIONS !! tgt = Some tdef /\
    from_crs (Some sdef) (Some tdef) = Return t /\
    csv_input = yields (rows_of csv_input) Rend /\
    existsb has_surplus (ok_rows t src tgt (rows_of csv_input)) = false /\
    res = {| b_success := true;
             b_total_processed :=
               Z.of_nat (length (ok_rows t src tgt (rows_of csv_input)));
             b_errors := bad_rows t src tgt 1 (rows_of csv_input);
             b_data := ok_rows t src tgt (rows_of csv_input) |}.
Proof.
  unfold transform_batch.
  destruct source as [src|]; [|discriminate].
  destruct target as [tgt|]; [|simpl; rewrite orb_true_r; discriminate].
  simpl from_option. destruct (negb (truthy (VStr src)) || negb (truthy (VStr tgt)));
    [discriminate|].
  unfold mbind, exc_bind. cbn [from_option id].
  destruct (CRS_DEFINITIONS !! src) as [sdef|] eqn:Hs; [|discriminate].
  destruct (CRS_DEFINITIONS !! tgt) as [tdef|] eqn:Ht; [|discriminate].
  destruct (from_crs (Some sdef) (Some tdef)) as [t|] eqn:Hf; [|discriminate].
  destruct (batch_loop _ _ _ t src tgt 1 csv_input [] []) as [[results errs]|] eqn:Hl;
    [|discriminate].
  apply batch_loop_Return in Hl as (Hy & -> & ->).
  unfold jsonify_batch. cbn [b_data].
  destruct (existsb has_surplus _) eqn:Hsur; [discriminate|].
  simpl. intros [= <-]. exists src, tgt, sdef, tdef, t. repeat split; assumption.
Qed.

Lemma py_round_number v nd r : py_round v nd = Return r -> is_Some (as_num r).
Proof.
  unfold py_round. destruct (as_num v) as [[z|f]|]; intros [= <-]; eexists; reflexivity.
Qed.

Lemma process_row_columns t source target row r :
  row_result t source target row = Return r ->
  (forall k, k ∉ added_columns -> r !! k = row !! k) /\
  r !! Some "target_crs" = Some (VStr target) /\
  exists vx vy,
    r !! Some "transformed_x" = Some vx /\ r !! Some "transformed_y" = Some vy /\
    is_Some (as_num vx) /\ is_Some (as_num vy).
Proof.
  rewrite process_row_names. unfold mbind, exc_bind.
  destruct (py_float unicode (first_of row (x_names source))) as [x|]; [|discriminate].
  destruct (py_float unicode (first_of row (y_names source))) as [y|]; [|discriminate].
  destruct (transform t (VFloat x) (VFloat y)) as [[tx ty]|]; [|discriminate].
  destruct (py_round tx 6) as [rx|] eqn:Hrx; [|discriminate].
  destruct (py_round ty 6) as [ry|] eqn:Hry; [|discriminate].
  intros [= <-]. split; [|split].
  - intros k Hk. unfold added_columns in Hk.
    rewrite !lookup_insert_ne; [reflexivity|..]; intros <-; apply Hk;
      repeat constructor.
  - apply lookup_insert_eq.
  - exists rx, ry. split; [|split; [|split]].
    + rewrite !lookup_insert_ne by discriminate. apply lookup_insert_eq.
    + rewrite lookup_insert_ne by discriminate. apply lookup_insert_eq.
    + eapply py_round_number; eassumption.
    + eapply py_round_number; eassumption.
Qed.

(** X17: when the batch handler answers a result, every row of its success
    list is a row the reader yielded with its columns unchanged, except that
    the three columns 'transformed_x', 'transformed_y' and 'target_crs' are
    set (replacing input columns of the same names): the first two to
    numbers, the last to the requested target code. *)
Theorem batch_rows_keep_columns csv_input source target res :
  batch (Some (Return csv_input)) source target = Ok res ->
  forall r, r ∈ b_data res ->
    exists row,
      row ∈ rows_of csv_input /\
      (forall k, k ∉ added_columns -> r !! k = row !! k) /\
      r !! Some "target_crs" = VStr <$> target /\
      exists vx vy,
        r !! Some "transformed_x" = Some vx /\ r !! Some "transformed_y" = Some vy /\
        is_Some (as_num vx) /\ is_Some (as_num vy).
Proof.
  intros H r Hr.
  apply batch_ok_inv in H
    as (src & tgt & sdef & tdef & t & -> & -> & _ & _ & _ & _ & _ & ->).
  cbn [b_data] in Hr. unfold successes in Hr.
  apply list_elem_of_omap in Hr as (row & Hrow & Hres).
  exists row. split; [exact Hrow|].
  apply (process_row_columns t src tgt).
  destruct (process_row _ _ _ t src tgt row); congruence.
Qed.

Lemma failures_shift t source target rows :
  forall start k,
    bad_rows t source target (start + k) rows
    = shift_rows k (bad_rows t source target start rows).
Proof.
  induction rows as [|row rest IH]; intros start k; [reflexivity|].
  cbn [failures]. replace (start + k + 1) with (start + 1 + k) by lia.
  rewrite IH. destruct (process_row _ _ _ t source target row); reflexivity.
Qed.

Lemma failures_app t source target rows1 rows2 :
  forall start,
    bad_rows t source target start (rows1 ++ rows2)
    = (bad_rows t source target start rows1
       ++ bad_rows t source target (start + Z.of_nat (length rows1)) rows2)%list.
Proof.
  induction rows1 as [|row rest IH]; intros start.
  - simpl. now rewrite Z.add_0_r.
  - cbn [app failures length]. rewrite IH.
    replace (start + 1 + Z.of_nat (length rest)) with (start + Z.of_nat (S (length rest)))
      by lia.
    destruct (process_row _ _ _ t source target row); reflexivity.
Qed.

Lemma rows_of_yields rows : rows_of (yields rows Rend) = rows.
Proof. induction rows as [|row rest IH]; simpl; congruence. Qed.

(** X18: batches compose.  When the handler answers a result for each of
    two inputs, its answer for the rows of the first followed by the rows of
    the second is the two success lists appended, the two counts added, and
    the error list of the first followed by the error entries of the second
    with their row numbers moved up by the number of rows of the first. *)
Theorem batch_append rows1 rows2 source target res1 res2 :
  batch (Some (Return (yields rows1 Rend))) source target = Ok res1 ->
  batch (Some (Return (yields rows2 Rend))) source target = Ok res2 ->
  batch (Some (Return (yields (rows1 ++ rows2) Rend))) source target
  = Ok {| b_success := true;
          b_total_processed := b_total_processed res1 + b_total_processed res2;
          b_errors := b_errors res1
                      ++ shift_rows (Z.of_nat (length rows1)) (b_errors res2);
          b_data := b_data res1 ++ b_data res2 |}.
Proof.
  intros H1 H2.
  apply batch_ok_inv in H1
    as (src & tgt & sdef & tdef & t & -> & -> & Hs & Ht & Hf & _ & Hsur1 & ->).
  apply batch_ok_inv in H2
    as (src' & tgt' & sdef' & tdef' & t' & [= <-] & [= <-] & Hs' & Ht' & Hf' & _
        & Hsur2 & ->).
  rewrite Hs in Hs'. injection Hs' as <-. rewrite Ht in Ht'. injection Ht' as <-.
  rewrite Hf in Hf'. injection Hf' as <-.
  rewrite !rows_of_yields in *.
  rewrite (batch_run _ _ _ _ _ _ _ _ _ _ Hs Ht Hf), batch_loop_end.
  unfold mbind, exc_bind, jsonify_batch. cbn [b_data b_errors b_total_processed].
  unfold successes in *. rewrite omap_app, existsb_app, Hsur1, Hsur2.
  rewrite failures_app, failures_shift, length_app. simpl.
  do 2 f_equal. lia.
Qed.

Lemma failures_bounds t source target rows :
  forall start,
    Forall (fun e => start <= e_row e < start + Z.of_nat (length rows))
      (bad_rows t source target start rows).
Proof.
  induction rows as [|row rest IH]; intros start; [constructor|].
  cbn [failures length].
  assert (Forall (fun e => start <= e_row e < start + Z.of_nat (S (length rest)))
            (bad_rows t source target (start + 1) rest)) as Hrest.
  { eapply Forall_impl; [apply IH|]. simpl. intros e He. lia. }
  destruct (process_row _ _ _ t source target row); [exact Hrest|].
  constructor; [simpl; lia|exact Hrest].
Qed.

Lemma failures_sorted t source target rows :
  forall start, StronglySorted Z.lt (map e_row (bad_rows t source target start rows)).
Proof.
  induction rows as [|row rest IH]; intros start; [constructor|].
  cbn [failures]. destruct (process_row _ _ _ t source target row) as [r|ex]; [apply IH|].
  cbn [map e_row]. constructor; [apply IH|].
  apply Forall_map. eapply Forall_impl; [apply (failures_bounds t source target rest)|].
  simpl. intros e' He'. lia.
Qed.

(** X19: the error list is in the order of the input.  In the loop, and so
    in every result the handler answers, the row numbers of the error entries
    are strictly increasing (no row is reported twice) and lie between 1 and
    the number of rows the reader yielded. *)
Theorem batch_errors_sorted :
  (forall t source target csv_input results errs,
     loop t source target 1 csv_input [] [] = Return (results, errs) ->
     StronglySorted Z.lt (map e_row errs) /\
     Forall (fun e => 1 <= e_row e <= Z.of_nat (length (rows_of csv_input))) errs) /\
  (forall csv_input source target res,
     batch (Some (Return csv_input)) source target = Ok res ->
     StronglySorted Z.lt (map e_row (b_errors res)) /\
     Forall (fun e => 1 <= e_row e <= Z.of_nat (length (rows_of csv_input)))
       (b_errors res)).
Proof.
  assert (forall t source target rows,
             StronglySorted Z.lt (map e_row (bad_rows t source target 1 rows)) /\
             Forall (fun e => 1 <= e_row e <= Z.of_nat (length rows))
               (bad_rows t source target 1 rows)) as Hgen.
  { intros t source target rows. split; [apply failures_sorted|].
    eapply Forall_impl; [apply (failures_bounds t source target rows 1)|].
    simpl. intros e He. lia. }
  split.
  - intros t source target csv_input results errs H.
    apply batch_loop_Return in H as (_ & _ & ->). apply Hgen.
  - intros csv_input source target res H.
    apply batch_ok_inv in H
      as (src & tgt & sdef & tdef & t & -> & -> & _ & _ & _ & _ & _ & ->).
    apply Hgen.
Qed.

(** X20: column names are tried in order and the first cell that is not
    empty wins, whatever the later columns hold; for a 'WGS84' source a
    non-empty 'lon' cell is the longitude even when 'longitude', 'x' or 'X'
    are filled too, and 'x' is used when 'lon' and 'longitude' are blank. *)
Theorem first_of_first_truthy :
  (forall (row : csv_row) before k after v,
     Forall (fun k' => truthy (default VNone (row !! Some k')) = false) before ->
     row !! Some k = Some v -> truthy v = true ->
     first_of row (before ++ k :: after) = v) /\
  (forall (row : csv_row) v,
     row !! Some "lon" = Some v -> truthy v = true ->
     first_of row (x_names "WGS84") = v) /\
  (forall (row : csv_row) v,
     blank row "lon" -> blank row "longitude" ->
     row !! Some "x" = Some v -> truthy v = true ->
     first_of row (x_names "WGS84") = v).
Proof.
  assert (forall (row : csv_row) before k after v,
             Forall (fun k' => truthy (default VNone (row !! Some k')) = false) before ->
             row !! Some k = Some v -> truthy v = true ->
             first_of row (before ++ k :: after) = v) as Hgen.
  { intros row before k after v Hb Hk Hv.
    induction Hb as [|k' before Hk' Hb IH].
    - destruct after; cbn [app first_of]; cbv zeta; rewrite Hk; cbn [from_option id];
        [reflexivity|now rewrite Hv].
    - cbn [app]. destruct (before ++ k :: after)%list as [|k2 rest] eqn:E;
        [now destruct before|].
      cbn [first_of] in *. cbv zeta. now rewrite Hk'. }
  split; [exact Hgen|]. split.
  - intros row v Hlon Hv. apply (Hgen row [] "lon" ["longitude"; "x"; "X"]); auto.
  - intros row v Hlon Hlong Hx Hv.
    apply (Hgen row ["lon"; "longitude"] "x" ["X"]); auto.
    repeat constructor;
      [destruct Hlon as [-> | [-> | ->]] | destruct Hlong as [-> | [-> | ->]]];
      reflexivity.
Qed.

(** X23: the answer of the batch is all or nothing.  With registered codes
    and a transformer, an error of the reader after any number of rows is
    answered 500 with its message and the rows processed before it are
    dropped; and when a row with cells beyond the header is transformed
    successfully, jsonify cannot write the success list and the whole batch
    is answered 500. *)
Theorem batch_all_or_nothing rows source target sdef tdef t :
  CRS_DEFINITIONS !! source = Some sdef ->
  CRS_DEFINITIONS !! target = Some tdef ->
  from_crs (Some sdef) (Some tdef) = Return t ->
  (forall e,
     batch (Some (Return (yields rows (Rerror e)))) (Some source) (Some target)
     = Error 500 (exn_str e)) /\
  (forall row r,
     row ∈ rows -> has_surplus row = true ->
     row_result t source target row = Return r ->
     exists msg,
       batch (Some (Return (yields rows Rend))) (Some source) (Some target)
       = Error 500 msg).
Proof.
  intros Hs Ht Hf. split.
  - intros e. now rewrite (batch_run _ _ _ _ _ _ _ _ _ _ Hs Ht Hf), batch_loop_error.
  - intros row r Hrow Hsur Hr.
    rewrite (batch_run _ _ _ _ _ _ _ _ _ _ Hs Ht Hf), batch_loop_end.
    unfold mbind, exc_bind, jsonify_batch. cbn [b_data].
    assert (existsb has_surplus (ok_rows t source target rows) = true) as ->.
    { apply existsb_exists. exists r. split.
      - apply list_elem_of_In. unfold successes. apply list_elem_of_omap.
        exists row. split; [exact Hrow|]. now rewrite Hr.
      - destruct (process_row_columns _ _ _ _ _ Hr) as [Hk _].
        unfold has_surplus in *. rewrite Hk; [exact Hsur|].
        unfold added_columns. intros Hin.
        repeat (apply elem_of_cons in Hin as [Hin|Hin]; [discriminate Hin|]).
        inversion Hin. }
    eexists. reflexivity.
Qed.

End BatchMore.

(** ** The batch and the single-point handler together *)

Section BothHandlers.

Variables c_sin c_cos c_tan c_atan : float -> float.
Variable c_pow : float -> float -> float.
Variable Transformer : Type.
Variable from_crs : option string -> option string -> exc Transformer.
Variable transform : Transformer -> pyval -> pyval -> exc (pyval * pyval).
Variable unicode : unicode_db.

(** X21: the batch agrees with the single-point transform on a pair of
    floats.  When a single-point request succeeds on the floats (fx, fy), a
    CSV row whose cells read as the same floats succeeds for the same two
    codes, and its 'transformed_x' and 'transformed_y' are the target pair of
    the single-point result. *)
Theorem batch_agrees_with_single data r row fx fy :
  transform_coordinates c_sin c_cos c_tan c_atan c_pow Transformer from_crs transform data
  = Ok r ->
  p_x (r_source r) = VFloat fx ->
  p_y (r_source r) = VFloat fy ->
  py_float unicode (first_of row (x_names (p_crs (r_source r)))) = Return fx ->
  py_float unicode (first_of row (y_names (p_crs (r_source r)))) = Return fy ->
  exists sdef tdef t res,
    CRS_DEFINITIONS !! p_crs (r_source r) = Some sdef /\
    CRS_DEFINITIONS !! p_crs (r_target r) = Some tdef /\
    from_crs (Some sdef) (Some tdef) = Return t /\
    process_row Transformer transform unicode t
      (p_crs (r_source r)) (p_crs (r_target r)) row
    = Return res /\
    res !! Some "transformed_x" = Some (p_x (r_target r)) /\
    res !! Some "transformed_y" = Some (p_y (r_target r)).
Proof.
  intros H Hx Hy Hfx Hfy.
  apply transform_ok_inv in H
    as (source & target & sdef & tdef & coords & t & x & y & tx & ty &
        Hs & Ht & Hc & Hsd & Htd & Hf & He & Hn & Htr & Hb).
  apply build_result_inv in Hb as (rx & ry & m & Hrx & Hry & _ & ->).
  simpl in *. subst x y.
  exists sdef, tdef, t. eexists. repeat (split; [eassumption|]).
  rewrite process_row_names, Hfx, Hfy. unfold mbind, exc_bind.
  rewrite Htr, Hrx, Hry. split; [reflexivity|]. split.
  - rewrite !lookup_insert_ne by discriminate. apply lookup_insert_eq.
  - rewrite lookup_insert_ne by discriminate. apply lookup_insert_eq.
Qed.

End BothHandlers.

(** * The further properties at concrete requests *)

Lemma transform_error_statuses_witness :
  let data := transform_request "WGS84" "UTM_30N" (xy (VInt 1) (VInt 2)) in
  Examples.handler Standin.noop data = Error 400 "Invalid coordinate values" /\
  ((400 = 400 /\ In "Invalid coordinate values" transform_400) \/ 400 = 500).
Proof.
  split; [reflexivity|].
  apply (transform_error_statuses
           Standin.c_fun Standin.c_fun Standin.c_fun Standin.c_fun Standin.c_pow
           unit Standin.from_crs Standin.noop
           (transform_request "WGS84" "UTM_30N" (xy (VInt 1) (VInt 2)))).
  reflexivity.
Defined.

Lemma transform_unknown_crs_witness :
  let coords := lonlat (VInt 0) (VInt 5) in
  let data := transform_request "WGS84" "UTM_32N" coords in
  CRS_DEFINITIONS !! "UTM_32N" = None /\
  truthy coords = true /\
  Examples.handler Standin.noop data = Error 400 "Invalid CRS specified".
Proof.
  split; [reflexivity|]. split; [reflexivity|].
  apply (transform_unknown_crs
           Standin.c_fun Standin.c_fun Standin.c_fun Standin.c_fun Standin.c_pow
           unit Standin.from_crs Standin.noop
           (transform_request "WGS84" "UTM_32N" (lonlat (VInt 0) (VInt 5)))
           "WGS84" "UTM_32N" (lonlat (VInt 0) (VInt 5)));
    try reflexivity; try discriminate.
  right. reflexivity.
Defined.

Lemma transform_wrong_axis_names_witness :
  let c : gmap string pyval := list_to_map [("x", VInt 1); ("y", VInt 2)] in
  let data := transform_request "WGS84" "UTM_30N" (VDict c) in
  c <> ∅ /\
  default VNone (c !! x_key "WGS84") = VNone /\
  Examples.handler Standin.noop data = Error 400 "Invalid coordinate values".
Proof.
  assert ((list_to_map [("x", VInt 1); ("y", VInt 2)] : gmap string pyval) <> ∅) as Hne.
  { intros E. apply (f_equal (fun m : gmap string pyval => m !! "x")) in E.
    vm_compute in E. discriminate E. }
  split; [exact Hne|]. split; [reflexivity|].
  apply (transform_wrong_axis_names
           Standin.c_fun Standin.c_fun Standin.c_fun Standin.c_fun Standin.c_pow
           unit Standin.from_crs Standin.noop
           (transform_request "WGS84" "UTM_30N"
              (VDict (list_to_map [("x", VInt 1); ("y", VInt 2)])))
           "WGS84" "UTM_30N" "EPSG:4326" "EPSG:32630"
           (list_to_map [("x", VInt 1); ("y", VInt 2)]) tt);
    try reflexivity; [exact Hne|left; reflexivity].
Defined.

Lemma transform_pyproj_error_reported_witness :
  let coords := lonlat (VStr "west") (VInt 5) in
  let data := transform_request "WGS84" "WEB_MERCATOR" coords in
  Standin.noop tt (VStr "west") (VInt 5)
  = Raise (TypeError "must be real number, not str") /\
  Examples.handler Standin.noop data = Error 500 "must be real number, not str".
Proof.
  split; [reflexivity|].
  apply (transform_pyproj_error_reported
           Standin.c_fun Standin.c_fun Standin.c_fun Standin.c_fun Standin.c_pow
           unit Standin.from_crs Standin.noop
           (transform_request "WGS84" "WEB_MERCATOR" (lonlat (VStr "west") (VInt 5)))
           "WGS84" "WEB_MERCATOR" "EPSG:4326" "EPSG:3857"
           (lonlat (VStr "west") (VInt 5))
           (TypeError "must be real number, not str"));
    try reflexivity.
  right. exists tt, (VStr "west"), (VInt 5). repeat split; reflexivity.
Defined.

Lemma transform_is_pyproj_then_round_witness :
  let data := transform_request "WGS84" "GHANA_GRID"
                (lonlat (VFloat Examples.lon) (VFloat Examples.lat)) in
  exists r,
    Examples.handler Standin.noop data = Ok r /\
    p_x (r_source r) = VFloat Examples.lon /\
    p_x (r_target r) = VFloat Examples.lon6 /\
    exists sdef tdef coords t tx ty,
      py_get data "source_crs" = Return (VStr (p_crs (r_source r))) /\
      py_get data "target_crs" = Return (VStr (p_crs (r_target r))) /\
      py_get data "coordinates" = Return coords /\
      CRS_DEFINITIONS !! p_crs (r_source r) = Some sdef /\
      CRS_DEFINITIONS !! p_crs (r_target r) = Some tdef /\
      py_get coords (x_key (p_crs (r_source r))) = Return (p_x (r_source r)) /\
      py_get coords (y_key (p_crs (r_source r))) = Return (p_y (r_source r)) /\
      p_x (r_source r) <> VNone /\ p_y (r_source r) <> VNone /\
      Standin.from_crs (Some sdef) (Some tdef) = Return t /\
      Standin.noop t (p_x (r_source r)) (p_y (r_source r)) = Return (tx, ty) /\
      py_round tx 6 = Return (p_x (r_target r)) /\
      py_round ty 6 = Return (p_y (r_target r)).
Proof.
  eexists. split; [vm_compute; reflexivity|].
  split; [reflexivity|]. split; [reflexivity|].
  apply (transform_is_pyproj_then_round
           Standin.c_fun Standin.c_fun Standin.c_fun Standin.c_fun Standin.c_pow
           unit Standin.from_crs Standin.noop
           (transform_request "WGS84" "GHANA_GRID"
              (lonlat (VFloat Examples.lon) (VFloat Examples.lat)))).
  vm_compute. reflexivity.
Defined.

Lemma transform_accuracy_reachable_witness :
  let data := transform_request "WGS84" "UTM_30N"
                (lonlat (VFloat Examples.lon) (VFloat Examples.lat)) in
  exists r,
    Examples.handler Standin.noop data = Ok r /\
    p_crs (r_source r) = "WGS84" /\ p_crs (r_target r) = "UTM_30N" /\
    accuracy (r_accuracy r) = "1-5 meters" /\
    ((p_crs (r_source r) = "WGS84" /\ p_crs (r_target r) = "GHANA_GRID" /\
      TRANSFORMATION_ACCURACY !! "WGS84_to_GHANA_GRID" = Some (r_accuracy r)) \/
     (p_crs (r_source r) = "GHANA_GRID" /\ p_crs (r_target r) = "WGS84" /\
      TRANSFORMATION_ACCURACY !! "GHANA_GRID_to_WGS84" = Some (r_accuracy r)) \/
     (~ (p_crs (r_source r) = "WGS84" /\ p_crs (r_target r) = "GHANA_GRID") /\
      ~ (p_crs (r_source r) = "GHANA_GRID" /\ p_crs (r_target r) = "WGS84") /\
      r_accuracy r = generic_accuracy /\ accuracy (r_accuracy r) = "1-5 meters")).
Proof.
  eexists. split; [vm_compute; reflexivity|].
  split; [reflexivity|]. split; [reflexivity|]. split; [reflexivity|].
  apply (transform_accuracy_reachable
           Standin.c_fun Standin.c_fun Standin.c_fun Standin.c_fun Standin.c_pow
           unit Standin.from_crs Standin.noop
           (transform_request "WGS84" "UTM_30N"
              (lonlat (VFloat Examples.lon) (VFloat Examples.lat)))).
  vm_compute. reflexivity.
Defined.

Lemma batch_rejects_bad_parameters_witness :
  CRS_DEFINITIONS !! "UTM_AUTO" = None /\
  Examples.batch (Some (Return (yields Examples.three_rows Rend)))
    (Some "WGS84") (Some "UTM_AUTO")
  = Error 400 "Invalid CRS specified" /\
  Examples.batch (Some (Raise (Exn "UnicodeDecodeError" "invalid start byte")))
    (Some "WGS84") (Some "UTM_AUTO")
  = Error 500 "invalid start byte" /\
  Examples.batch (Some (Raise (Exn "UnicodeDecodeError" "invalid start byte")))
    (Some "") (Some "UTM_30N")
  = Error 400 "Missing CRS parameters".
Proof.
  split; [reflexivity|]. split; [|split].
  - apply (proj1 (proj2 (proj2 (proj2
             (batch_rejects_bad_parameters unit Standin.from_crs Standin.noop
                Standin.unicode))))
             (yields Examples.three_rows Rend) "WGS84" "UTM_AUTO");
      [discriminate|discriminate|right; reflexivity].
  - apply (proj1 (proj2 (proj2
             (batch_rejects_bad_parameters unit Standin.from_crs Standin.noop
                Standin.unicode)))
             (Exn "UnicodeDecodeError" "invalid start byte") "WGS84" "UTM_AUTO");
      discriminate.
  - apply (proj1 (proj2
             (batch_rejects_bad_parameters unit Standin.from_crs Standin.noop
                Standin.unicode))
             (Raise (Exn "UnicodeDecodeError" "invalid start byte"))
             (Some "") (Some "UTM_30N")).
    right. left. reflexivity.
Defined.

Lemma batch_rows_keep_columns_witness :
  exists res,
    Examples.batch (Some (Return (yields Examples.three_rows Rend)))
      (Some "WGS84") (Some "UTM_30N") = Ok res /\
    length (b_data res) = 2%nat /\
    forall r, r ∈ b_data res ->
      exists row,
        row ∈ rows_of (yields Examples.three_rows Rend) /\
        (forall k, k ∉ added_columns -> r !! k = row !! k) /\
        r !! Some "target_crs" = VStr <$> Some "UTM_30N" /\
        exists vx vy,
          r !! Some "transformed_x" = Some vx /\ r !! Some "transformed_y" = Some vy /\
          is_Some (as_num vx) /\ is_Some (as_num vy).
Proof.
  eexists. split; [vm_compute; reflexivity|]. split; [reflexivity|].
  apply (batch_rows_keep_columns unit Standin.from_crs Standin.noop Standin.unicode
           (yields Examples.three_rows Rend) (Some "WGS84") (Some "UTM_30N")).
  vm_compute. reflexivity.
Defined.

Lemma batch_append_witness :
  exists res1 res2,
    Examples.batch (Some (Return (yields Examples.three_rows Rend)))
      (Some "WGS84") (Some "UTM_30N") = Ok res1 /\
    Examples.batch (Some (Return (yields [Examples.empty_lon] Rend)))
      (Some "WGS84") (Some "UTM_30N") = Ok res2 /\
    Examples.batch
      (Some (Return (yields (Examples.three_rows ++ [Examples.empty_lon]) Rend)))
      (Some "WGS84") (Some "UTM_30N")
    = Ok {| b_success := true;
            b_total_processed := b_total_processed res1 + b_total_processed res2;
            b_errors := b_errors res1
                        ++ shift_rows (Z.of_nat (length Examples.three_rows))
                             (b_errors res2);
            b_data := b_data res1 ++ b_data res2 |}.
Proof.
  do 2 eexists. split; [vm_compute; reflexivity|]. split; [vm_compute; reflexivity|].
  apply (batch_append unit Standin.from_crs Standin.noop Standin.unicode
           Examples.three_rows [Examples.empty_lon] (Some "WGS84") (Some "UTM_30N"));
    vm_compute; reflexivity.
Defined.

Lemma batch_errors_sorted_witness :
  let csv_input := yields (Examples.three_rows ++ [Examples.empty_lon]) Rend in
  exists res,
    Examples.batch (Some (Return csv_input)) (Some "WGS84") (Some "UTM_30N") = Ok res /\
    map e_row (b_errors res) = [2; 4] /\
    StronglySorted Z.lt (map e_row (b_errors res)) /\
    Forall (fun e => 1 <= e_row e <= Z.of_nat (length (rows_of csv_input)))
      (b_errors res).
Proof.
  eexists. split; [vm_compute; reflexivity|]. split; [reflexivity|].
  apply (proj2 (batch_errors_sorted unit Standin.from_crs Standin.noop Standin.unicode)
           (yields (Examples.three_rows ++ [Examples.empty_lon]) Rend)
           (Some "WGS84") (Some "UTM_30N")).
  vm_compute. reflexivity.
Defined.

Lemma batch_all_or_nothing_witness :
  let rows := (Examples.three_rows ++ [Examples.surplus_row])%list in
  Examples.surplus_row ∈ rows /\
  has_surplus Examples.surplus_row = true /\
  (exists r, Examples.row_result "WGS84" "UTM_30N" Examples.surplus_row = Return r) /\
  (exists msg,
     Examples.batch (Some (Return (yields rows Rend))) (Some "WGS84") (Some "UTM_30N")
     = Error 500 msg) /\
  Examples.batch
    (Some (Return (yields rows (Rerror (Exn "Error" "field larger than field limit")))))
    (Some "WGS84") (Some "UTM_30N")
  = Error 500 "field larger than field limit".
Proof.
  assert (Examples.surplus_row ∈ (Examples.three_rows ++ [Examples.surplus_row])%list)
    as Hin by (apply elem_of_app; right; constructor).
  destruct (batch_all_or_nothing unit Standin.from_crs Standin.noop Standin.unicode
              (Examples.three_rows ++ [Examples.surplus_row])%list
              "WGS84" "UTM_30N" "EPSG:4326" "EPSG:32630" tt
              eq_refl eq_refl eq_refl) as [Herr Hsur].
  split; [exact Hin|]. split; [reflexivity|].
  split; [eexists; vm_compute; reflexivity|]. split.
  - eapply (Hsur Examples.surplus_row); [exact Hin|reflexivity|vm_compute; reflexivity].
  - apply Herr.
Defined.

Lemma first_of_first_truthy_witness :
  let row : csv_row :=
    list_to_map [(Some "lon", VStr ""); (Some "x", VStr "-1.5"); (Some "X", VStr "7")] in
  blank row "lon" /\ blank row "longitude" /\
  row !! Some "x" = Some (VStr "-1.5") /\ truthy (VStr "-1.5") = true /\
  first_of row (x_names "WGS84") = VStr "-1.5".
Proof.
  assert (blank (list_to_map [(Some "lon", VStr ""); (Some "x", VStr "-1.5");
                              (Some "X", VStr "7")])
            "lon") as H1 by (right; right; reflexivity).
  assert (blank (list_to_map [(Some "lon", VStr ""); (Some "x", VStr "-1.5");
                              (Some "X", VStr "7")])
            "longitude") as H2 by (left; reflexivity).
  split; [exact H1|]. split; [exact H2|]. split; [reflexivity|]. split; [reflexivity|].
  apply (proj2 (proj2 first_of_first_truthy)
           (list_to_map [(Some "lon", VStr ""); (Some "x", VStr "-1.5");
                         (Some "X", VStr "7")])
           (VStr "-1.5") H1 H2); reflexivity.
Defined.

Lemma batch_agrees_with_single_witness :
  let data := transform_request "WGS84" "UTM_31N"
                (lonlat (VFloat (F64.of_decimal false 25 (-2)))
                        (VFloat (F64.of_decimal false 65 (-1)))) in
  let row : csv_row := {[ Some "lon" := VStr "0.25"; Some "lat" := VStr "6.5" ]} in
  exists r,
    Examples.handler Standin.noop data = Ok r /\
    py_float Standin.unicode (first_of row (x_names "WGS84"))
    = Return (F64.of_decimal false 25 (-2)) /\
    py_float Standin.unicode (first_of row (y_names "WGS84"))
    = Return (F64.of_decimal false 65 (-1)) /\
    exists sdef tdef t res,
      CRS_DEFINITIONS !! p_crs (r_source r) = Some sdef /\
      CRS_DEFINITIONS !! p_crs (r_target r) = Some tdef /\
      Standin.from_crs (Some sdef) (Some tdef) = Return t /\
      process_row unit Standin.noop Standin.unicode t
        (p_crs (r_source r)) (p_crs (r_target r)) row
      = Return res /\
      res !! Some "transformed_x" = Some (p_x (r_target r)) /\
      res !! Some "transformed_y" = Some (p_y (r_target r)).
Proof.
  eexists. split; [vm_compute; reflexivity|].
  split; [reflexivity|]. split; [reflexivity|].
  apply (batch_agrees_with_single
           Standin.c_fun Standin.c_fun Standin.c_fun Standin.c_fun Standin.c_pow
           unit Standin.from_crs Standin.noop Standin.unicode
           (transform_request "WGS84" "UTM_31N"
              (lonlat (VFloat (F64.of_decimal false 25 (-2)))
                      (VFloat (F64.of_decimal false 65 (-1)))))
           _ {[ Some "lon" := VStr "0.25"; Some "lat" := VStr "6.5" ]}
           (F64.of_decimal false 25 (-2)) (F64.of_decimal false 65 (-1)));
    [vm_compute; reflexivity|reflexivity|reflexivity|reflexivity|reflexivity].
Defined.

(** ** Missing parameters *)

Section MissingParameters.

Variables c_sin c_cos c_tan c_atan : float -> float.
Variable c_pow : float -> float -> float.
Variable Transformer : Type.
Variable from_crs : option string -> option string -> exc Transformer.
Variable transform : Transformer -> pyval -> pyval -> exc (pyval * pyval).

(** X22: a body that is not an object is answered 500; in an object, when
    one of 'source_crs', 'target_crs' and 'coordinates' is absent, null or
    empty (an empty string, an empty coordinates object), the answer is 400
    'Missing required parameters', before the codes are looked up: an empty
    coordinates object is reported as a missing parameter, not as invalid
    coordinates. *)
Theorem transform_missing_parameters :
  (forall data,
     (forall d, data <> VDict d) ->
     exists msg,
       transform_coordinates c_sin c_cos c_tan c_atan c_pow Transformer from_crs transform
         data = Error 500 msg) /\
  (forall d : gmap string pyval,
     truthy (default VNone (d !! "source_crs")) = false \/
     truthy (default VNone (d !! "target_crs")) = false \/
     truthy (default VNone (d !! "coordinates")) = false ->
     transform_coordinates c_sin c_cos c_tan c_atan c_pow Transformer from_crs transform
       (VDict d) = Error 400 "Missing required parameters").
Proof.
  split.
  - intros data Hnd. unfold transform_coordinates.
    destruct data; try (eexists; reflexivity). now destruct (Hnd d).
  - intros d H. unfold transform_coordinates. cbn [py_get]. unfold mbind, exc_bind.
    destruct H as [-> | [-> | ->]]; rewrite ?andb_false_r; reflexivity.
Qed.

End MissingParameters.

Lemma transform_missing_parameters_witness :
  let d : gmap string pyval :=
    list_to_map [("source_crs", VStr "WGS84"); ("target_crs", VStr "UTM_30N");
                 ("coordinates", VDict ∅)] in
  truthy (default VNone (d !! "coordinates")) = false /\
  Examples.handler Standin.noop (VDict d) = Error 400 "Missing required parameters" /\
  exists msg, Examples.handler Standin.noop (VList []) = Error 500 msg.
Proof.
  split; [reflexivity|]. split.
  - apply (proj2 (transform_missing_parameters
             Standin.c_fun Standin.c_fun Standin.c_fun Standin.c_fun Standin.c_pow
             unit Standin.from_crs Standin.noop)).
    right. right. reflexivity.
  - apply (proj1 (transform_missing_parameters
             Standin.c_fun Standin.c_fun Standin.c_fun Standin.c_fun Standin.c_pow
             unit Standin.from_crs Standin.noop)).
    intros d. discriminate.
Defined.
